(** * Poultry conditions monitor

    A shallow embedding of the monitoring pipeline of the repository:
    - [Main]: the Streamlit monitor of [main.py] (anomaly scoring over the
      session's window of readings, feature preparation, the monitoring loop);
    - [Dashboard]: the history update and the analysis panel of
      [dashboard/app.py];
    - [Explain]: the feature preparation of [explain/shap_explain.py];
    - [Forecast]: the window slicing of [forecast/forecast_date.py].

    Python floats are IEEE binary64 numbers and are modelled by Rocq's
    primitive floats.  Python exceptions are values of [exn]; a computation
    that may raise returns an [exc].  The session state of Streamlit is
    passed explicitly. *)

From Stdlib Require Import Floats ZArith List Bool Lia String.
From stdpp Require Import base list strings.
Import ListNotations.

Set Default Proof Using "Type".
Set Warnings "-inexact-float".
Open Scope string_scope.
Open Scope list_scope.

(** * Python exceptions *)

Inductive exn : Type :=
| ZeroDivisionError
| IndexError
| NotFittedError
| KeyError (key : string)
| ValueError (msg : string)
| AttributeError (name : string)
| UnboundLocalError (name : string).

Inductive exc (A : Type) : Type :=
| Ok (a : A)
| Raise (e : exn).

Arguments Ok {A} a.
Arguments Raise {A} e.

Definition exc_bind {A B} (c : exc A) (k : A -> exc B) : exc B :=
  match c with
  | Ok a => k a
  | Raise e => Raise e
  end.

Definition raises {A} (c : exc A) : Prop := exists e, c = Raise e.

Declare Scope exc_scope.
Delimit Scope exc_scope with exc.
Notation "x <-- c ;;; k" := (exc_bind c (fun x => k))
  (at level 100, c at next level, right associativity) : exc_scope.

(** * Floats as Python uses them *)

Module Py.

(** [float(n)] for a count. *)
Definition float_of_nat (n : nat) : float :=
  PrimFloat.of_uint63 (Uint63.of_Z (Z.of_nat n)).

(** [a / b] on two Python floats: [float_div] raises on a zero divisor
    (of either sign) and is the IEEE quotient otherwise. *)
Definition truediv (a b : float) : exc float :=
  if PrimFloat.eqb b 0%float then Raise ZeroDivisionError
  else Ok (PrimFloat.div a b).

(** [a > b]. *)
Definition gt (a b : float) : bool := PrimFloat.ltb b a.

(** [l[0]]. *)
Definition item0 {A} (l : list A) : exc A :=
  match l with
  | x :: _ => Ok x
  | [] => Raise IndexError
  end.

(** [l[-1:]]: the last element as a list, empty for an empty list. *)
Definition last_slice {A} (l : list A) : list A :=
  drop (length l - 1) l.

(** Python's [seq[a:b]] for a list: a negative bound counts from the end,
    and both bounds are clipped to the list. *)
Definition clip_index (n i : Z) : Z :=
  if (i <? 0)%Z then Z.max 0 (n + i) else Z.min n i.

Definition slice {A} (l : list A) (a b : Z) : list A :=
  let n := Z.of_nat (length l) in
  let lo := clip_index n a in
  let hi := clip_index n b in
  take (Z.to_nat (hi - lo)) (drop (Z.to_nat lo) l).

(** [range(k)]: empty when [k <= 0]. *)
Definition range (k : Z) : list Z :=
  map Z.of_nat (seq 0 (Z.to_nat k)).

End Py.

(** * The pandas operations the code uses *)

Module Pandas.

Section reductions.

(** [values.sum()] on a float column: NumPy's add reduction.  NumPy does not
    add from left to right: it keeps eight partial sums over a column of
    eight entries or more and splits a column of more than 128 entries in
    halves, and the order decides the last bit of a sum that is not exact.
    The reduction is therefore taken from the library ([Main.np_sum]);
    [Reference.np_sum] writes NumPy's order out. *)
Variable np_sum : list float -> float.

(** [isna]: the mask of a float column. *)
Definition isna (x : float) : bool := PrimFloat.is_nan x.

(** [values.size - mask.sum()]: the number of entries that are not NaN. *)
Definition count (l : list float) : nat :=
  length (List.filter (fun x => negb (isna x)) l).

(** [np.putmask(values, mask, 0)]: reductions skip NaN entries
    ([skipna=True]) by summing a copy in which they are zero. *)
Definition putmask_zero (l : list float) : list float :=
  map (fun x => if isna x then 0%float else x) l.

(** [Series.mean()] ([nanmean]): the sum of the entries over their count,
    NaN for a column without entries. *)
Definition mean (l : list float) : float :=
  let the_sum := np_sum (putmask_zero l) in
  if (count l =? 0)%nat then nan
  else PrimFloat.div the_sum (Py.float_of_nat (count l)).

(** [nanvar]: the squared deviations from the mean (zero at a NaN entry),
    summed and divided by [count - ddof]; NaN when [count <= ddof]. *)
Definition var (ddof : nat) (l : list float) : float :=
  if (count l <=? ddof)%nat then nan
  else
    let avg := PrimFloat.div (np_sum (putmask_zero l)) (Py.float_of_nat (count l)) in
    let sqr :=
      map (fun x => if isna x then 0%float
                    else PrimFloat.mul (PrimFloat.sub avg x) (PrimFloat.sub avg x)) l in
    PrimFloat.div (np_sum sqr) (Py.float_of_nat (count l - ddof)).

(** [Series.std()]: pandas' default is [ddof=1], the sample standard
    deviation. *)
Definition std (l : list float) : float :=
  PrimFloat.sqrt (var 1 l).

(** The population standard deviation ([ddof=0]), which the code never
    asks for; it is here to be compared with [std]. *)
Definition std_population (l : list float) : float :=
  PrimFloat.sqrt (var 0 l).

End reductions.

(** A frame with one row: its columns in order, each with its value. *)
Definition row := list (string * float).

Definition columns (df : row) : list string := map fst df.

Definition has_column (name : string) (df : row) : bool :=
  existsb (String.eqb name) (columns df).

(** [df[name]] on a one-row frame. *)
Fixpoint getitem (name : string) (df : row) : exc float :=
  match df with
  | [] => Raise (KeyError name)
  | (c, v) :: rest => if String.eqb name c then Ok v else getitem name rest
  end.

(** [df[name] = v]: overwrite the column in place, or add it at the end. *)
Fixpoint setitem (name : string) (v : float) (df : row) : row :=
  match df with
  | [] => [(name, v)]
  | (c, w) :: rest =>
      if String.eqb name c then (c, v) :: rest else (c, w) :: setitem name v rest
  end.

(** [df[names]]: the named columns in the order asked for. *)
Fixpoint select (names : list string) (df : row) : exc row :=
  match names with
  | [] => Ok []
  | n :: rest =>
      (v <-- getitem n df ;;;
       r <-- select rest df ;;;
       Ok ((n, v) :: r))%exc
  end.

(** [df.rename(columns=mapping)]. *)
Definition rename (mapping : list (string * string)) (df : row) : row :=
  map (fun '(c, v) =>
         match find (fun '(old, _) => String.eqb c old) mapping with
         | Some (_, new) => (new, v)
         | None => (c, v)
         end) df.

End Pandas.

(** * main.py: the monitor *)

Module Main.

(** The numeric libraries behind the anomaly scorer, taken as an interface:
    scikit-learn's [IsolationForest] (constructed with [random_state=42],
    so that fitting is a function of the hyper-parameters and the training
    rows, and scoring a row is a function of the fitted forest and the row)
    and NumPy's [percentile], [exp] and add reduction ([ndarray.sum], which
    pandas calls for a mean and a variance).  The calls are taken to return: an
    input that scikit-learn itself would refuse is not modelled.  What the
    monitor does with a forest that was never fitted is modelled, in
    [detector_score_samples]. *)
Class Libraries : Type := {
  forest : Type;
  IsolationForest_fit : float -> Z -> list (list float) -> forest;
  score_sample : forest -> list float -> float;
  np_percentile : list float -> float -> float;
  np_exp : float -> float;
  np_sum : list float -> float
}.

(** One entry of [st.session_state.historical_data]: the dict the monitoring
    loop builds.  ['severity'] is set before the entry is appended and
    ['anomaly_score'] once the window is scored. *)
Record reading : Type := mk_reading {
  temperature_C : float;
  humidity_pct : float;
  ammonia_ppm : float;
  timestamp : float;
  ph : float;
  severity : option string;
  reading_anomaly_score : option float
}.

(** The dict [detect_anomalies] returns. *)
Record anomaly_result : Type := mk_result {
  is_anomaly : bool;
  anomaly_score : float;
  features : list (string * Z)
}.

(** An [IsolationForest] object: its hyper-parameters, and the forest once
    [fit] has run. *)
Record detector `{Libraries} : Type := mk_detector {
  contamination : float;
  n_estimators : Z;
  estimators_ : option forest
}.

(** The part of [st.session_state] the monitor computes with (the entries
    that are only displayed, [current_metrics] and [last_update], are left
    out).  [anomaly_threshold] is an attribute that does not exist until
    [detect_anomalies] assigns it. *)
Record session_state `{Libraries} : Type := mk_session {
  historical_data : list reading;
  anomaly_detector : option detector;
  anomaly_threshold : option float;
  monitoring_active : bool;
  anomalies_detected : nat;
  total_readings : nat;
  current_status : option string;
  current_anomaly : option anomaly_result
}.

(** [model/feature_config.json]. *)
Record feature_config : Type := mk_config {
  feature_names : list string;
  engineered_features : list string
}.

Section monitor.
Context `{Libraries}.

Definition initial_state : session_state :=
  {| historical_data := []; anomaly_detector := None; anomaly_threshold := None;
     monitoring_active := false; anomalies_detected := 0; total_readings := 0;
     current_status := None; current_anomaly := None |}.

Definition set_historical_data (v : list reading) (s : session_state) : session_state :=
  {| historical_data := v; anomaly_detector := anomaly_detector s;
     anomaly_threshold := anomaly_threshold s; monitoring_active := monitoring_active s;
     anomalies_detected := anomalies_detected s; total_readings := total_readings s;
     current_status := current_status s; current_anomaly := current_anomaly s |}.

Definition set_anomaly_detector (v : option detector) (s : session_state) : session_state :=
  {| historical_data := historical_data s; anomaly_detector := v;
     anomaly_threshold := anomaly_threshold s; monitoring_active := monitoring_active s;
     anomalies_detected := anomalies_detected s; total_readings := total_readings s;
     current_status := current_status s; current_anomaly := current_anomaly s |}.

Definition set_anomaly_threshold (v : option float) (s : session_state) : session_state :=
  {| historical_data := historical_data s; anomaly_detector := anomaly_detector s;
     anomaly_threshold := v; monitoring_active := monitoring_active s;
     anomalies_detected := anomalies_detected s; total_readings := total_readings s;
     current_status := current_status s; current_anomaly := current_anomaly s |}.

Definition set_monitoring_active (v : bool) (s : session_state) : session_state :=
  {| historical_data := historical_data s; anomaly_detector := anomaly_detector s;
     anomaly_threshold := anomaly_threshold s; monitoring_active := v;
     anomalies_detected := anomalies_detected s; total_readings := total_readings s;
     current_status := current_status s; current_anomaly := current_anomaly s |}.

Definition set_anomalies_detected (v : nat) (s : session_state) : session_state :=
  {| historical_data := historical_data s; anomaly_detector := anomaly_detector s;
     anomaly_threshold := anomaly_threshold s; monitoring_active := monitoring_active s;
     anomalies_detected := v; total_readings := total_readings s;
     current_status := current_status s; current_anomaly := current_anomaly s |}.

Definition set_total_readings (v : nat) (s : session_state) : session_state :=
  {| historical_data := historical_data s; anomaly_detector := anomaly_detector s;
     anomaly_threshold := anomaly_threshold s; monitoring_active := monitoring_active s;
     anomalies_detected := anomalies_detected s; total_readings := v;
     current_status := current_status s; current_anomaly := current_anomaly s |}.

Definition set_current_status (v : option string) (s : session_state) : session_state :=
  {| historical_data := historical_data s; anomaly_detector := anomaly_detector s;
     anomaly_threshold := anomaly_threshold s; monitoring_active := monitoring_active s;
     anomalies_detected := anomalies_detected s; total_readings := total_readings s;
     current_status := v; current_anomaly := current_anomaly s |}.

Definition set_current_anomaly (v : option anomaly_result) (s : session_state) : session_state :=
  {| historical_data := historical_data s; anomaly_detector := anomaly_detector s;
     anomaly_threshold := anomaly_threshold s; monitoring_active := monitoring_active s;
     anomalies_detected := anomalies_detected s; total_readings := total_readings s;
     current_status := current_status s; current_anomaly := v |}.

(** Code that reads and writes the session state and may raise.  What was
    written before an exception stays written. *)
Definition M (A : Type) : Type := session_state -> exc A * session_state.

Definition ret {A} (a : A) : M A := fun s => (Ok a, s).

Definition bind {A B} (c : M A) (k : A -> M B) : M B :=
  fun s =>
    match c s with
    | (Ok a, s') => k a s'
    | (Raise e, s') => (Raise e, s')
    end.

Definition get : M session_state := fun s => (Ok s, s).

Definition modify (f : session_state -> session_state) : M unit :=
  fun s => (Ok tt, f s).

Definition lift {A} (c : exc A) : M A := fun s => (c, s).

End monitor.

Declare Scope session_scope.
Delimit Scope session_scope with session.
Notation "x <~ c ;; k" := (bind c (fun x => k))
  (at level 100, c at next level, right associativity) : session_scope.
Notation "c ;;> k" := (bind c (fun _ => k))
  (at level 100, k at level 200, right associativity) : session_scope.

Section anomaly.
Context `{Libraries}.
Local Open Scope session_scope.

(** [initialize_anomaly_detector]: a fresh, unfitted forest. *)
Definition initialize_anomaly_detector : detector :=
  {| contamination := 0.1%float; n_estimators := 100; estimators_ := None |}.

(** [calculate_anomaly_threshold]. *)
Definition calculate_anomaly_threshold (scores : list float) : float :=
  np_percentile scores 10%float.

(** [st.session_state.anomaly_detector.fit(X)]: fits the object in place. *)
Definition detector_fit (X : list (list float)) : M unit :=
  s <~ get ;;
  match anomaly_detector s with
  | None => lift (Raise (AttributeError "fit"))
  | Some d =>
      modify (set_anomaly_detector
                (Some {| contamination := contamination d;
                         n_estimators := n_estimators d;
                         estimators_ :=
                           Some (IsolationForest_fit (contamination d) (n_estimators d) X) |}))
  end.

(** [st.session_state.anomaly_detector.score_samples(X)]: scikit-learn
    raises [NotFittedError] on an object that was never fitted. *)
Definition detector_score_samples (X : list (list float)) : M (list float) :=
  s <~ get ;;
  match anomaly_detector s with
  | None => lift (Raise (AttributeError "score_samples"))
  | Some d =>
      match estimators_ d with
      | None => lift (Raise NotFittedError)
      | Some m => ret (map (score_sample m) X)
      end
  end.

(** [st.session_state.anomaly_threshold]. *)
Definition read_anomaly_threshold : M float :=
  s <~ get ;;
  match anomaly_threshold s with
  | None => lift (Raise (AttributeError "anomaly_threshold"))
  | Some t => ret t
  end.

(** The local [features] of [detect_anomalies]. *)
Definition feature_columns : list string :=
  ["temperature_C"; "humidity_%"; "ammonia_ppm"; "ph"]%string.

(** The numeric cell of a reading under a column name.  The other keys of a
    reading hold no number or are not in every reading; the code never
    selects them. *)
Definition cell (r : reading) (name : string) : exc float :=
  if String.eqb name "temperature_C" then Ok (temperature_C r)
  else if String.eqb name "humidity_%" then Ok (humidity_pct r)
  else if String.eqb name "ammonia_ppm" then Ok (ammonia_ppm r)
  else if String.eqb name "ph" then Ok (ph r)
  else Raise (KeyError name).

Fixpoint mapM {A B} (f : A -> exc B) (l : list A) : exc (list B) :=
  match l with
  | [] => Ok []
  | a :: rest =>
      (b <-- f a ;;;
       bs <-- mapM f rest ;;;
       Ok (b :: bs))%exc
  end.

(** A frame of numbers: the column names and the rows. *)
Record frame : Type := mk_frame {
  header : list string;
  body : list (list float)
}.

(** [pd.DataFrame(data)[names]]. *)
Definition DataFrame_select (data : list reading) (names : list string) : exc frame :=
  (rows <-- mapM (fun r => mapM (cell r) names) data ;;;
   Ok {| header := names; body := rows |})%exc.

Fixpoint index_of (name : string) (names : list string) : option nat :=
  match names with
  | [] => None
  | n :: rest => if String.eqb name n then Some 0 else option_map S (index_of name rest)
  end.

(** [X[feat]]: a column of the frame. *)
Definition frame_column (X : frame) (feat : string) : exc (list float) :=
  match index_of feat (header X) with
  | None => Raise (KeyError feat)
  | Some j => Ok (map (fun r => nth j r nan) (body X))
  end.

(** [X.iloc[-1:]]. *)
Definition iloc_last (X : frame) : frame :=
  {| header := header X; body := Py.last_slice (body X) |}.

(** One entry of the ['features'] dict:
    [1 if abs(latest_data[feat].iloc[0] - X[feat].mean()) > 2 * X[feat].std() else 0]. *)
Definition feature_flag (X latest_data : frame) (feat : string) : exc (string * Z) :=
  (latest_col <-- frame_column latest_data feat ;;;
   value <-- Py.item0 latest_col ;;;
   col <-- frame_column X feat ;;;
   Ok (feat,
       if Py.gt (PrimFloat.abs (PrimFloat.sub value (Pandas.mean np_sum col)))
                (PrimFloat.mul 2%float (Pandas.std np_sum col))
       then 1%Z else 0%Z))%exc.

(** [detect_anomalies]. *)
Definition detect_anomalies (data : list reading) (retrain : bool)
  : M (option anomaly_result) :=
  if (length data <? 10)%nat then ret None
  else
    X <~ lift (DataFrame_select data feature_columns) ;;
    s <~ get ;;
    (if retrain || negb (bool_decide (is_Some (anomaly_detector s))) then
       modify (set_anomaly_detector (Some initialize_anomaly_detector)) ;;>
       detector_fit (body X) ;;>
       train_scores <~ detector_score_samples (body X) ;;
       modify (set_anomaly_threshold (Some (calculate_anomaly_threshold train_scores)))
     else ret tt) ;;>
    let latest_data := iloc_last X in
    scores <~ detector_score_samples (body latest_data) ;;
    score <~ lift (Py.item0 scores) ;;
    let probability :=
      PrimFloat.div 1%float (PrimFloat.add 1%float (np_exp (PrimFloat.opp score))) in
    threshold <~ read_anomaly_threshold ;;
    flags <~ lift (mapM (feature_flag X latest_data) feature_columns) ;;
    ret (Some {| is_anomaly := PrimFloat.ltb score threshold;
                 anomaly_score := probability;
                 features := flags |}).

End anomaly.

(** The one-row frame [pd.DataFrame([reading])] of the monitoring loop, with
    the keys in the order the loop sets them. *)
Definition DataFrame_of_reading (r : reading) : Pandas.row :=
  [("temperature_C", temperature_C r); ("humidity_%", humidity_pct r);
   ("ammonia_ppm", ammonia_ppm r); ("timestamp", timestamp r); ("ph", ph r)]%string.

(** [prepare_features].  [pd.to_numeric] leaves a column of floats as it
    is; the divisions are pandas' column-wise ones, which do not raise. *)
Definition prepare_features (config : option feature_config) (data : Pandas.row)
  : exc Pandas.row :=
  match config with
  | None => Raise (ValueError "Feature configuration not loaded")
  | Some cfg =>
      let df := data in
      (t <-- Pandas.getitem "temperature_C" df ;;;
       h <-- Pandas.getitem "humidity_%" df ;;;
       let df := Pandas.setitem "temp_humidity_interaction"
                   (PrimFloat.div (PrimFloat.mul t h) 100%float) df in
       a <-- Pandas.getitem "ammonia_ppm" df ;;;
       t' <-- Pandas.getitem "temperature_C" df ;;;
       let df := Pandas.setitem "ammonia_temp_ratio" (PrimFloat.div a t') df in
       let all_features := feature_names cfg ++ engineered_features cfg in
       Pandas.select all_features df)%exc
  end.

Section loop.
Context `{Libraries}.
(** [feature_config], and [scaler.transform] followed by
    [model.predict(...)[0]]; [None] when loading them failed. *)
Variable config : option feature_config.
Variable classifier : option (Pandas.row -> exc string).
Local Open Scope session_scope.

Definition predict_severity (pred_data : Pandas.row) : exc string :=
  match classifier with
  | None => Raise (AttributeError "transform")
  | Some f => f pred_data
  end.

(** [reading['anomaly_score'] = v] on the dict that was just appended: the
    window holds that same dict as its last entry. *)
Definition annotate_latest (v : float) (window : list reading) : list reading :=
  match window with
  | [] => []
  | _ =>
      take (length window - 1) window ++
      map (fun r => {| temperature_C := temperature_C r; humidity_pct := humidity_pct r;
                       ammonia_ppm := ammonia_ppm r; timestamp := timestamp r; ph := ph r;
                       severity := severity r; reading_anomaly_score := Some v |})
          (Py.last_slice window)
  end.

(** The anomaly step of one iteration of the monitoring loop. *)
Definition detect_stage : M unit :=
  s <~ get ;;
  if (10 <=? length (historical_data s))%nat then
    anomaly_result <~ detect_anomalies (historical_data s)
                        (length (historical_data s) mod 10 =? 0)%nat ;;
    match anomaly_result with
    | Some r =>
        modify (fun s => set_historical_data
                           (annotate_latest (anomaly_score r) (historical_data s)) s) ;;>
        modify (set_current_anomaly (Some r)) ;;>
        if is_anomaly r
        then modify (fun s => set_anomalies_detected (S (anomalies_detected s)) s)
        else ret tt
    | None => ret tt
    end
  else ret tt.

(** The body of one iteration, for a reading whose pH has been drawn. *)
Definition monitoring_body (r : reading) : M unit :=
  pred_data <~ lift (prepare_features config (DataFrame_of_reading r)) ;;
  label <~ lift (predict_severity pred_data) ;;
  modify (set_current_status (Some label)) ;;>
  modify (fun s => set_historical_data
                     (historical_data s ++
                      [{| temperature_C := temperature_C r; humidity_pct := humidity_pct r;
                          ammonia_ppm := ammonia_ppm r; timestamp := timestamp r; ph := ph r;
                          severity := Some label;
                          reading_anomaly_score := reading_anomaly_score r |}]) s) ;;>
  modify (fun s => set_total_readings (S (total_readings s)) s) ;;>
  detect_stage.

(** One iteration under the loop's [except Exception]: an error is shown and
    monitoring stops. *)
Definition monitoring_iteration (r : reading) (s : session_state) : session_state :=
  match monitoring_body r s with
  | (Ok _, s') => s'
  | (Raise _, s') => set_monitoring_active false s'
  end.

(** The "Apply Settings" button of [render_settings_tab]: a new forest
    object that has not been fitted. *)
Definition apply_settings (c : float) (n : Z) (s : session_state) : session_state :=
  set_anomaly_detector
    (Some {| contamination := c; n_estimators := n; estimators_ := None |}) s.

End loop.

End Main.

(** * explain/shap_explain.py: preparing a reading for explanation *)

Module Explain.

(** What [explain_prediction] returns. *)
Record explanation : Type := mk_explanation {
  prediction : string;
  probabilities : list (string * float);
  is_anomaly : bool;
  anomaly_score : float
}.

(** The renaming table of [prepare_features], with its keys as the file
    spells them. *)
Definition ui_to_internal : list (string * string) :=
  [("temperature (¬∞C)", "temperature_C");
   ("humidity (%)", "humidity_%");
   ("ammonia (ppm)", "ammonia_ppm");
   ("pH", "ph")].

(** The first part of the [try] block of [prepare_features]: the frame of
    the reading, renamed, with the two engineered columns.  The reading is a
    dict of numbers, given as its items; a reading that holds a UI name next
    to the internal name it is renamed to would give two columns of one
    name, and is not covered by [Pandas.getitem]. *)
Definition engineer (reading : Pandas.row) : exc Pandas.row :=
  let df := reading in
  let df := Pandas.rename ui_to_internal df in
  (t <-- Pandas.getitem "temperature_C" df ;;;
   h <-- Pandas.getitem "humidity_%" df ;;;
   let df := Pandas.setitem "temp_humidity_interaction"
               (PrimFloat.div (PrimFloat.mul t h) 100%float) df in
   a <-- Pandas.getitem "ammonia_ppm" df ;;;
   t' <-- Pandas.getitem "temperature_C" df ;;;
   let df := Pandas.setitem "ammonia_temp_ratio" (PrimFloat.div a t') df in
   Ok df)%exc.

(** The names of [required_features] that are no column of [df]:
    [set(required_features) - set(df.columns)]. *)
Definition missing_features (required : list string) (df : Pandas.row) : list string :=
  List.filter (fun f => negb (Pandas.has_column f df)) required.

(** The second part of the [try] block. *)
Definition check_and_order (config : Main.feature_config) (df : Pandas.row)
  : exc Pandas.row :=
  let required_features := Main.feature_names config ++ Main.engineered_features config in
  match missing_features required_features df with
  | [] => Pandas.select required_features df
  | _ :: _ => Raise (ValueError "Missing required features")
  end.

(** [PoultryModelExplainer.prepare_features].  The [except] clause prints
    and raises again; when the failure came before [required_features] was
    assigned, printing it is itself an error, and that error is the one that
    leaves the function. *)
Definition prepare_features (config : Main.feature_config) (reading : Pandas.row)
  : exc Pandas.row :=
  match engineer reading with
  | Raise _ => Raise (UnboundLocalError "required_features")
  | Ok df =>
      match check_and_order config df with
      | Raise e => Raise e
      | Ok X => Ok X
      end
  end.

(** [PoultryModelExplainer.explain_prediction]: [model] stands for what
    follows the preparation (scaling, the classifier, the persisted anomaly
    detector, SHAP and the plot); an exception is printed and raised again. *)
Definition explain_prediction (config : Main.feature_config)
    (model : Pandas.row -> exc explanation) (reading : Pandas.row) : exc explanation :=
  (X <-- prepare_features config reading ;;;
   model X)%exc.

End Explain.

(** * dashboard/app.py: the history and the analysis panel *)

Module Dashboard.

(** The dict [generate_reading] returns: four Python floats. *)
Record sensor_reading : Type := mk_sensor {
  temperature : float;
  humidity : float;
  ammonia : float;
  pH : float
}.

(** A row of [st.session_state.history]. *)
Record entry : Type := mk_entry {
  entry_timestamp : float;
  entry_temperature : float;
  entry_humidity : float;
  entry_ammonia : float;
  entry_pH : float;
  entry_severity : string;
  ammonia_temp_ratio : float;
  temp_humidity_interaction : float
}.

(** The session state, and the errors shown with [st.error]. *)
Record session_state : Type := mk_session {
  history : list entry;
  last_update : option float;
  shown_errors : list exn
}.

Inductive advice : Type := ImmediateAction | MonitorClosely | Optimal.

(** What the "Analysis & Insights" column shows. *)
Record panel : Type := mk_panel {
  shown_explanation : option Explain.explanation;
  failure_notice : bool;
  shown_advice : advice
}.

Section history.
(** [scaler.transform] followed by [severity_model.predict(...)[0]]; [None]
    when either artifact is missing. *)
Variable classifier : option (list float -> exc string).

(** The [try] block of [update_history] for a reading that is not [None].
    [now] and [now'] are the two readings of the clock.  The operands are
    Python floats, so the quotient raises on a zero temperature. *)
Definition update_history_try (now now' : float) (reading : sensor_reading)
    (s : session_state) : exc session_state :=
  (ratio <-- Py.truediv (ammonia reading) (temperature reading) ;;;
   let interaction :=
     PrimFloat.div (PrimFloat.mul (temperature reading) (humidity reading)) 100%float in
   let features :=
     [temperature reading; humidity reading; ammonia reading; pH reading;
      ratio; interaction] in
   label <-- match classifier with
             | Some predict => predict features
             | None => Ok "Unknown"
             end ;;;
   let new_row :=
     {| entry_timestamp := now; entry_temperature := temperature reading;
        entry_humidity := humidity reading; entry_ammonia := ammonia reading;
        entry_pH := pH reading; entry_severity := label;
        ammonia_temp_ratio := ratio; temp_humidity_interaction := interaction |} in
   Ok {| history := history s ++ [new_row]; last_update := Some now';
         shown_errors := shown_errors s |})%exc.

(** [update_history]: whatever the block raises is caught and shown. *)
Definition update_history (now now' : float) (reading : option sensor_reading)
    (s : session_state) : session_state :=
  match reading with
  | None => s
  | Some r =>
      match update_history_try now now' r s with
      | Ok s' => s'
      | Raise e =>
          {| history := history s; last_update := last_update s;
             shown_errors := shown_errors s ++ [e] |}
      end
  end.

(** [stream_data] over the cycles of a run: each cycle has its two clock
    readings and what [generate_reading] returned. *)
Definition stream_data (cycles : list (float * float * option sensor_reading))
    (s : session_state) : session_state :=
  fold_left (fun s '(now, now', reading) => update_history now now' reading s) cycles s.

End history.

(** The [feature_data] dict the panel builds from the latest row. *)
Definition feature_data (latest : entry) : Pandas.row :=
  [("temperature (°C)", entry_temperature latest);
   ("humidity (%)", entry_humidity latest);
   ("ammonia (ppm)", entry_ammonia latest);
   ("pH", entry_pH latest)].

(** The second column of [main]: the explanation inside its [try], then the
    recommendations.  Nothing is shown while the history is empty. *)
Definition analysis_panel (explain : Pandas.row -> exc Explain.explanation)
    (s : session_state) : option panel :=
  match last (history s) with
  | None => None
  | Some latest =>
      let outcome := explain (feature_data latest) in
      Some {| shown_explanation := match outcome with Ok e => Some e | Raise _ => None end;
              failure_notice := match outcome with Ok _ => false | Raise _ => true end;
              shown_advice :=
                if String.eqb (entry_severity latest) "High" then ImmediateAction
                else if String.eqb (entry_severity latest) "Medium" then MonitorClosely
                else Optimal |}
  end.

End Dashboard.

(** * forecast/forecast_date.py: training windows *)

Module Forecast.

Record PoultryForecaster : Type := mk_forecaster {
  sequence_length : Z;
  prediction_length : Z
}.

(** [create_sequences]: the lists [X] and [y] the loop builds. *)
Definition create_sequences {A} (self : PoultryForecaster) (data : list A)
  : list (list A) * list (list A) :=
  let idx :=
    Py.range (Z.of_nat (length data) - sequence_length self - prediction_length self + 1) in
  (map (fun i => Py.slice data i (i + sequence_length self)) idx,
   map (fun i => Py.slice data (i + sequence_length self)
                   (i + sequence_length self + prediction_length self)) idx).

End Forecast.

(** * A concrete instance of the libraries

    The theorems below hold for every instance of [Main.Libraries].  To run
    the model on concrete windows this module gives one: NumPy's percentile
    by linear interpolation, NumPy's blocked summation, a series for [exp],
    and, in place of the
    isolation forest, a scorer that is the more negative the further a row
    lies from the column means of the training rows. *)

Module Reference.

Fixpoint insert_sorted (x : float) (l : list float) : list float :=
  match l with
  | [] => [x]
  | y :: rest => if PrimFloat.leb x y then x :: l else y :: insert_sorted x rest
  end.

Definition sort (l : list float) : list float := fold_right insert_sorted [] l.

(** The largest [k < n] with [k <= v], and 0 when there is none. *)
Definition floor_index (n : nat) (v : float) : nat :=
  fold_left (fun acc k => if PrimFloat.leb (Py.float_of_nat k) v then k else acc)
            (seq 0 n) 0%nat.

Definition lerp (a b t : float) : float :=
  let diff_b_a := PrimFloat.sub b a in
  if PrimFloat.leb 0.5%float t
  then PrimFloat.sub b (PrimFloat.mul diff_b_a (PrimFloat.sub 1%float t))
  else PrimFloat.add a (PrimFloat.mul diff_b_a t).

Definition percentile (l : list float) (q : float) : float :=
  let sorted := sort l in
  let n := length sorted in
  match n with
  | O => nan
  | S _ =>
      let virtual_index :=
        PrimFloat.mul (Py.float_of_nat (n - 1)) (PrimFloat.div q 100%float) in
      let previous := floor_index n virtual_index in
      let next := Nat.min (previous + 1) (n - 1) in
      lerp (nth previous sorted nan) (nth next sorted nan)
           (PrimFloat.sub virtual_index (Py.float_of_nat previous))
  end.

(** [exp x] as [(sum of x/1024 to the k over k!) to the 1024]. *)
Definition exp_series (x : float) : float :=
  fold_right (fun k acc => PrimFloat.add 1%float (PrimFloat.mul (PrimFloat.div x k) acc))
             1%float
             [1; 2; 3; 4; 5; 6; 7; 8; 9; 10; 11; 12; 13; 14; 15; 16]%float.

Definition exp (x : float) : float :=
  Nat.iter 10 (fun y => PrimFloat.mul y y) (exp_series (PrimFloat.div x 1024%float)).

(** NumPy's add reduction over a float column ([pairwise_sum] of its
    [loops_utils.h]), in the order NumPy adds. *)

(** Fewer than eight entries: one after another. *)
Definition sequential (acc : float) (l : list float) : float :=
  fold_left PrimFloat.add l acc.

(** [r[j] += a[i + j]] for the eight partial sums. *)
Fixpoint add_lanes (r block : list float) : list float :=
  match r, block with
  | x :: r', y :: block' => PrimFloat.add x y :: add_lanes r' block'
  | _, _ => r
  end.

(** The loop over the blocks of eight that follow the first one; [fuel]
    bounds the number of blocks. *)
Fixpoint lanes (fuel : nat) (r l : list float) : list float :=
  match fuel with
  | O => r
  | S fuel' =>
      match l with
      | [] => r
      | _ => lanes fuel' (add_lanes r (take 8 l)) (drop 8 l)
      end
  end.

(** Eight to 128 entries: eight partial sums over the whole blocks of
    eight, added in pairs, then the entries left over one after another. *)
Definition unrolled (l : list float) : float :=
  let n := length l in
  let whole := (n - n mod 8)%nat in
  let r := lanes n (take 8 l) (drop 8 (take whole l)) in
  let r' j := nth j r 0%float in
  let res :=
    PrimFloat.add
      (PrimFloat.add (PrimFloat.add (r' 0%nat) (r' 1%nat))
                     (PrimFloat.add (r' 2%nat) (r' 3%nat)))
      (PrimFloat.add (PrimFloat.add (r' 4%nat) (r' 5%nat))
                     (PrimFloat.add (r' 6%nat) (r' 7%nat))) in
  sequential res (drop whole l).

(** More than 128 entries: two halves, the first of a length that is a
    multiple of eight.  [fuel] bounds the depth; the length of the column
    is enough. *)
Fixpoint pairwise_sum (fuel : nat) (l : list float) : float :=
  let n := length l in
  if (n <? 8)%nat then sequential 0%float l
  else if (n <=? 128)%nat then unrolled l
  else
    match fuel with
    | O => unrolled l
    | S fuel' =>
        let n2 := (n / 2 - (n / 2) mod 8)%nat in
        PrimFloat.add (pairwise_sum fuel' (take n2 l)) (pairwise_sum fuel' (drop n2 l))
    end.

(** The reduction starts from zero and adds the blocked sum of the column. *)
Definition np_sum (l : list float) : float :=
  PrimFloat.add 0%float (pairwise_sum (length l) l).

Definition column_means (X : list (list float)) : list float :=
  map (fun j => Pandas.mean np_sum (map (fun r => nth j r nan) X)) (seq 0 4).

Definition distance_score (means row : list float) : float :=
  PrimFloat.opp
    (PrimFloat.add 0.35%float
       (PrimFloat.div
          (np_sum (map (fun '(x, m) => PrimFloat.abs (PrimFloat.sub x m))
                       (combine row means)))
          100%float)).

#[export] Instance libraries : Main.Libraries :=
  {| Main.forest := list float;
     Main.IsolationForest_fit := fun _ _ X => column_means X;
     Main.score_sample := distance_score;
     Main.np_percentile := percentile;
     Main.np_exp := exp;
     Main.np_sum := np_sum |}.

(** A reading as the monitoring loop appends it. *)
Definition sample (t h a p : float) : Main.reading :=
  {| Main.temperature_C := t; Main.humidity_pct := h; Main.ammonia_ppm := a;
     Main.timestamp := 0%float; Main.ph := p;
     Main.severity := Some "Low"; Main.reading_anomaly_score := None |}.

(** Nine readings of 30 degrees, 60 %, 12 ppm and pH 7. *)
Definition nine_readings : list Main.reading :=
  repeat (sample 30 60 12 7) 9.

(** Ten readings whose temperatures have mean 30, the last one at 34. *)
Definition ten_temperatures : list float :=
  [27; 27; 31; 31; 31; 29; 30; 30; 30; 34]%float.

Definition ten_readings : list Main.reading :=
  map (fun t => sample t 60 12 7) ten_temperatures.

(** What [detect_anomalies] returns for [ten_readings] when it retrains, and
    the session it leaves, starting from the initial one. *)
Definition ten_result : Main.anomaly_result :=
  {| Main.is_anomaly := true;
     Main.anomaly_score := 0.40371730070323208%float;
     Main.features :=
       [("temperature_C", 0%Z); ("humidity_%", 0%Z); ("ammonia_ppm", 0%Z); ("ph", 0%Z)] |}.

Definition ten_session : Main.session_state :=
  Main.set_anomaly_threshold (Some (-0.38100000000000001)%float)
    (Main.set_anomaly_detector
       (Some {| Main.contamination := 0.1%float; Main.n_estimators := 100;
                Main.estimators_ := Some [30; 60; 12; 7]%float |})
       Main.initial_state).

(** The ten readings and an eleventh: a window the loop scores without
    asking for a retrain. *)
Definition eleven_readings : list Main.reading :=
  ten_readings ++ [sample 30 60 12 7].

(** The configuration [train_severity_model.py] saves. *)
Definition saved_config : Main.feature_config :=
  {| Main.feature_names := ["temperature_C"; "humidity_%"; "ammonia_ppm"; "ph"];
     Main.engineered_features := ["temp_humidity_interaction"; "ammonia_temp_ratio"] |}.

End Reference.

(** * Notions used to state the properties *)

Section notions.
Context `{Main.Libraries}.

(** The four base features of a reading, in the order of
    [Main.feature_columns]. *)
Definition feature_values (r : Main.reading) : list float :=
  [Main.temperature_C r; Main.humidity_pct r; Main.ammonia_ppm r; Main.ph r].

(** The column of the window under the [j]-th base feature. *)
Definition window_column (j : nat) (data : list Main.reading) : list float :=
  map (fun r => nth j (feature_values r) nan) data.

(** The display value computed from a raw score. *)
Definition sigmoid (score : float) : float :=
  PrimFloat.div 1%float (PrimFloat.add 1%float (Main.np_exp (PrimFloat.opp score))).

(** The forest object after [initialize_anomaly_detector] and [fit]. *)
Definition fitted_on (X : list (list float)) : Main.detector :=
  {| Main.contamination := 0.1%float; Main.n_estimators := 100;
     Main.estimators_ := Some (Main.IsolationForest_fit 0.1%float 100 X) |}.

(** The threshold published with the forest fitted on [X]. *)
Definition threshold_of (X : list (list float)) : float :=
  Main.calculate_anomaly_threshold
    (map (Main.score_sample (Main.IsolationForest_fit 0.1%float 100 X)) X).

(** The session after a refit on [X]. *)
Definition refitted (X : list (list float)) (s : Main.session_state) : Main.session_state :=
  Main.set_anomaly_threshold (Some (threshold_of X))
    (Main.set_anomaly_detector (Some (fitted_on X)) s).

(** The two-standard-deviation test of one value against its column. *)
Definition deviates (col : list float) (value : float) : bool :=
  Py.gt (PrimFloat.abs (PrimFloat.sub value (Pandas.mean Main.np_sum col)))
        (PrimFloat.mul 2%float (Pandas.std Main.np_sum col)).

(** The same test against the population standard deviation. *)
Definition deviates_population (col : list float) (value : float) : bool :=
  Py.gt (PrimFloat.abs (PrimFloat.sub value (Pandas.mean Main.np_sum col)))
        (PrimFloat.mul 2%float (Pandas.std_population Main.np_sum col)).

(** The result [detect_anomalies] builds for a window ending in [latest],
    scored by forest [m] against [threshold]. *)
Definition result_of (m : Main.forest) (threshold : float)
    (data : list Main.reading) (latest : Main.reading) : Main.anomaly_result :=
  let score := Main.score_sample m (feature_values latest) in
  {| Main.is_anomaly := PrimFloat.ltb score threshold;
     Main.anomaly_score := sigmoid score;
     Main.features :=
       imap (fun j feat =>
               (feat, if deviates (window_column j data) (nth j (feature_values latest) nan)
                      then 1%Z else 0%Z))
            Main.feature_columns |}.

(** The forest in use and the threshold in use come from one fit: the
    threshold is the percentile of the scores that this very forest gave to
    the rows it was fitted on. *)
Definition same_generation (s : Main.session_state) : Prop :=
  forall d m,
    Main.anomaly_detector s = Some d ->
    Main.estimators_ d = Some m ->
    exists X,
      m = Main.IsolationForest_fit (Main.contamination d) (Main.n_estimators d) X /\
      Main.anomaly_threshold s =
        Some (Main.calculate_anomaly_threshold (map (Main.score_sample m) X)).

(** What can happen to the session: a call of [detect_anomalies], an
    iteration of the monitoring loop, the settings button. *)
Inductive step : Main.session_state -> Main.session_state -> Prop :=
| step_detect data retrain s :
    step s (snd (Main.detect_anomalies data retrain s))
| step_iteration config classifier r s :
    step s (Main.monitoring_iteration config classifier r s)
| step_settings c n s :
    step s (Main.apply_settings c n s).

Inductive reachable : Main.session_state -> Prop :=
| reachable_initial : reachable Main.initial_state
| reachable_step s s' : reachable s -> step s s' -> reachable s'.

End notions.

(** The names [required_features] of the explainer. *)
Definition required_features (config : Main.feature_config) : list string :=
  Main.feature_names config ++ Main.engineered_features config.

(** The columns a reading has to offer once renamed and engineered. *)
Definition available_columns (reading : Pandas.row) : list string :=
  Pandas.columns (Pandas.rename Explain.ui_to_internal reading) ++
  ["temp_humidity_interaction"; "ammonia_temp_ratio"].

(** A required feature is absent from the reading after engineering. *)
Definition feature_absent (config : Main.feature_config) (reading : Pandas.row) : Prop :=
  exists f, In f (required_features config) /\ ~ In f (available_columns reading).

(** * forecast_date.py: the synthetic series *)

Module Synthetic.

(** NumPy's [maximum] and [minimum] on two floats: a NaN first argument is
    returned as it is, otherwise the comparison decides. *)
Definition np_maximum (a b : float) : float :=
  if PrimFloat.is_nan a then a else if PrimFloat.ltb b a then a else b.

Definition np_minimum (a b : float) : float :=
  if PrimFloat.is_nan a then a else if PrimFloat.ltb a b then a else b.

(** [np.clip(x, lo, hi)]. *)
Definition np_clip (x lo hi : float) : float :=
  np_minimum (np_maximum x lo) hi.

(** The four sensor columns of the frame [generate_synthetic_timeseries]
    returns (its timestamps are left out). *)
Record timeseries : Type := mk_timeseries {
  temperature_C : list float;
  humidity_pct : list float;
  ammonia_ppm : list float;
  ph : list float
}.

(** [generate_synthetic_timeseries], from the four arrays [temp],
    [humidity], [ammonia] and [ph] it computes from sines and random noise:
    each column is the array clipped to its range. *)
Definition generate_synthetic_timeseries (temp humidity ammonia ph : list float)
  : timeseries :=
  {| temperature_C := map (fun x => np_clip x 20 35) temp;
     humidity_pct := map (fun x => np_clip x 40 80) humidity;
     ammonia_ppm := map (fun x => np_clip x 5 20) ammonia;
     ph := map (fun x => np_clip x 6.5 7.5) ph |}.

End Synthetic.

(** * Further notions *)

Section loop_notions.
Context `{Main.Libraries}.
Variable config : option Main.feature_config.
Variable classifier : option (Pandas.row -> exc string).

(** A reading as the monitoring loop builds it before the iteration: the
    dict has no ['anomaly_score'] key yet. *)
Definition fresh (r : Main.reading) : Prop := Main.reading_anomaly_score r = None.

(** The reading as it is appended, with its label. *)
Definition labelled (label : string) (r : Main.reading) : Main.reading :=
  {| Main.temperature_C := Main.temperature_C r; Main.humidity_pct := Main.humidity_pct r;
     Main.ammonia_ppm := Main.ammonia_ppm r; Main.timestamp := Main.timestamp r;
     Main.ph := Main.ph r; Main.severity := Some label;
     Main.reading_anomaly_score := Main.reading_anomaly_score r |}.

(** The session after the appending part of an iteration. *)
Definition appended (label : string) (r : Main.reading) (s : Main.session_state)
  : Main.session_state :=
  Main.set_total_readings (S (Main.total_readings s))
    (Main.set_historical_data (Main.historical_data s ++ [labelled label r])
       (Main.set_current_status (Some label) s)).

(** The session after the loop has taken note of a result: the score is
    written on the latest reading, the result is kept, and an anomaly is
    counted. *)
Definition scored (r : Main.anomaly_result) (s : Main.session_state) : Main.session_state :=
  let s2 :=
    Main.set_current_anomaly (Some r)
      (Main.set_historical_data
         (Main.annotate_latest (Main.anomaly_score r) (Main.historical_data s)) s) in
  if Main.is_anomaly r
  then Main.set_anomalies_detected (S (Main.anomalies_detected s2)) s2
  else s2.

(** What a monitoring session goes through: iterations of the loop on fresh
    readings, and clicks on the settings button. *)
Inductive loop_step : Main.session_state -> Main.session_state -> Prop :=
| loop_iteration r s :
    fresh r -> loop_step s (Main.monitoring_iteration config classifier r s)
| loop_settings c n s :
    loop_step s (Main.apply_settings c n s).

Inductive loop_reachable : Main.session_state -> Prop :=
| loop_initial : loop_reachable Main.initial_state
| loop_next s s' : loop_reachable s -> loop_step s s' -> loop_reachable s'.

(** The loop run over a list of readings, one iteration each. *)
Definition run_loop (readings : list Main.reading) (s : Main.session_state)
  : Main.session_state :=
  fold_left (fun s r => Main.monitoring_iteration config classifier r s) readings s.

End loop_notions.

(** The session after the loop has run over [Reference.ten_readings] with
    the saved configuration and a classifier that answers "Low". *)
Definition monitored_ten : Main.session_state (H := Reference.libraries) :=
  run_loop (H := Reference.libraries) (Some Reference.saved_config)
    (Some (fun _ => Ok "Low")) Reference.ten_readings
    (Main.initial_state (H := Reference.libraries)).

(** A column is the raw array clipped to a range: entry by entry, a NaN
    stays a NaN and a number lies within the bounds. *)
Definition clipped_to (lo hi : float) (raw column : list float) : Prop :=
  length column = length raw /\
  forall i x,
    raw !! i = Some x ->
    exists v,
      column !! i = Some v /\
      PrimFloat.is_nan v = PrimFloat.is_nan x /\
      (PrimFloat.is_nan x = false ->
       PrimFloat.leb lo v = true /\ PrimFloat.leb v hi = true).

(** A feature vector with its two engineered entries exchanged. *)
Definition exchange_engineered (v : list float) : list float :=
  match v with
  | [t; h; a; p; x; y] => [t; h; a; p; y; x]
  | _ => v
  end.

(** * Properties of the anomaly scorer *)

Section anomaly_facts.
Context `{Main.Libraries}.

Lemma last_slice_snoc {A} (l : list A) (x : A) : Py.last_slice (l ++ [x]) = [x].
Proof.
  unfold Py.last_slice. rewrite length_app. simpl.
  replace (length l + 1 - 1)%nat with (length l) by lia.
  rewrite drop_app_length. reflexivity.
Qed.

Lemma last_snoc_inv {A} (l : list A) (x : A) :
  last l = Some x -> exists init, l = init ++ [x].
Proof.
  destruct l as [|a l'] using rev_ind; [discriminate|].
  rewrite last_snoc. intros [= ->]. eauto.
Qed.

Lemma window_has_last (data : list Main.reading) :
  (10 <= length data)%nat -> exists latest, last data = Some latest.
Proof.
  destruct data as [|a l'] using rev_ind; simpl; [lia|].
  intros _. rewrite last_snoc. eauto.
Qed.

Lemma mapM_cons {A B} (f : A -> exc B) (a : A) (l : list A) :
  Main.mapM f (a :: l) =
  exc_bind (f a) (fun b => exc_bind (Main.mapM f l) (fun bs => Ok (b :: bs))).
Proof. reflexivity. Qed.

Lemma select_row (r : Main.reading) :
  Main.mapM (Main.cell r) Main.feature_columns = Ok (feature_values r).
Proof. reflexivity. Qed.

Lemma select_rows (data : list Main.reading) :
  Main.mapM (fun r => Main.mapM (Main.cell r) Main.feature_columns) data =
  Ok (map feature_values data).
Proof.
  induction data as [|r data IH]; [reflexivity|].
  rewrite mapM_cons, IH, select_row. reflexivity.
Qed.

Lemma DataFrame_select_features (data : list Main.reading) :
  Main.DataFrame_select data Main.feature_columns =
  Ok {| Main.header := Main.feature_columns; Main.body := map feature_values data |}.
Proof.
  unfold Main.DataFrame_select. rewrite select_rows. reflexivity.
Qed.

Lemma window_flags_eq (m : Main.forest) (threshold : float)
    (init : list Main.reading) (latest : Main.reading) :
  Main.mapM
    (Main.feature_flag
       {| Main.header := Main.feature_columns;
          Main.body := map feature_values (init ++ [latest]) |}
       {| Main.header := Main.feature_columns; Main.body := [feature_values latest] |})
    Main.feature_columns =
  Ok (Main.features (result_of m threshold (init ++ [latest]) latest)).
Proof.
  unfold result_of, window_column, deviates.
  cbn [Main.features imap Main.feature_columns].
  unfold Main.feature_flag, Main.frame_column.
  cbn [Main.mapM Main.header Main.body Main.feature_columns Main.index_of String.eqb
       Ascii.eqb Bool.eqb option_map exc_bind map Py.item0 nth feature_values].
  rewrite !map_map. reflexivity.
Qed.

Lemma iloc_last_window (init : list Main.reading) (latest : Main.reading) :
  Main.iloc_last {| Main.header := Main.feature_columns;
                    Main.body := map feature_values (init ++ [latest]) |} =
  {| Main.header := Main.feature_columns; Main.body := [feature_values latest] |}.
Proof.
  unfold Main.iloc_last. cbn [Main.header Main.body].
  rewrite map_app. cbn [map]. rewrite last_slice_snoc. reflexivity.
Qed.

Ltac run_session :=
  cbv [Main.bind Main.modify Main.detector_fit Main.detector_score_samples
       Main.get Main.ret Main.lift Main.read_anomaly_threshold];
  cbn [Main.anomaly_detector Main.set_anomaly_detector Main.set_anomaly_threshold
       Main.anomaly_threshold Main.initialize_anomaly_detector Main.estimators_
       Main.contamination Main.n_estimators Main.body map Py.item0].

(** A window too short is not scored. *)
Lemma detect_anomalies_short (data : list Main.reading) (retrain : bool)
    (s : Main.session_state) :
  (length data < 10)%nat -> Main.detect_anomalies data retrain s = (Ok None, s).
Proof.
  intros Hlen. unfold Main.detect_anomalies.
  apply Nat.ltb_lt in Hlen. rewrite Hlen. reflexivity.
Qed.

(** A call that refits: the whole outcome. *)
Lemma detect_anomalies_refit (init : list Main.reading) (latest : Main.reading)
    (retrain : bool) (s : Main.session_state) :
  (10 <= length (init ++ [latest]))%nat ->
  retrain = true \/ Main.anomaly_detector s = None ->
  Main.detect_anomalies (init ++ [latest]) retrain s =
  (Ok (Some (result_of (Main.IsolationForest_fit 0.1%float 100
                          (map feature_values (init ++ [latest])))
                       (threshold_of (map feature_values (init ++ [latest])))
                       (init ++ [latest]) latest)),
   refitted (map feature_values (init ++ [latest])) s).
Proof.
  intros Hlen Hre. unfold Main.detect_anomalies.
  apply Nat.ltb_ge in Hlen. rewrite Hlen.
  unfold Main.bind at 1. unfold Main.lift at 1.
  rewrite DataFrame_select_features.
  unfold Main.bind at 1. unfold Main.get at 1.
  assert (Hc : retrain || negb (bool_decide (is_Some (Main.anomaly_detector s))) = true).
  { destruct Hre as [-> | ->]; [reflexivity|].
    rewrite bool_decide_eq_false_2; [apply orb_true_r|]. intros [? ?]; discriminate. }
  rewrite Hc, iloc_last_window. run_session.
  rewrite window_flags_eq
    with (m := Main.IsolationForest_fit 0.1%float 100 (map feature_values (init ++ [latest])))
         (threshold := threshold_of (map feature_values (init ++ [latest]))).
  reflexivity.
Qed.

(** A call that keeps the forest of the session: the whole outcome. *)
Lemma detect_anomalies_reuse (init : list Main.reading) (latest : Main.reading)
    (s : Main.session_state) (d : Main.detector) :
  (10 <= length (init ++ [latest]))%nat ->
  Main.anomaly_detector s = Some d ->
  Main.detect_anomalies (init ++ [latest]) false s =
  match Main.estimators_ d with
  | None => (Raise NotFittedError, s)
  | Some m =>
      match Main.anomaly_threshold s with
      | None => (Raise (AttributeError "anomaly_threshold"), s)
      | Some threshold => (Ok (Some (result_of m threshold (init ++ [latest]) latest)), s)
      end
  end.
Proof.
  intros Hlen Hd. unfold Main.detect_anomalies.
  apply Nat.ltb_ge in Hlen. rewrite Hlen.
  unfold Main.bind at 1. unfold Main.lift at 1.
  rewrite DataFrame_select_features.
  unfold Main.bind at 1. unfold Main.get at 1.
  assert (Hc : false || negb (bool_decide (is_Some (Main.anomaly_detector s))) = false).
  { rewrite Hd, bool_decide_eq_true_2; [reflexivity | eauto]. }
  rewrite Hc, iloc_last_window. run_session. rewrite Hd.
  destruct (Main.estimators_ d) as [m|]; [|reflexivity].
  cbn [Py.item0 map]. destruct (Main.anomaly_threshold s) as [threshold|]; [|reflexivity].
  rewrite window_flags_eq with (m := m) (threshold := threshold). reflexivity.
Qed.

(** A scored window has at least ten readings. *)
Lemma detect_anomalies_some_long (data : list Main.reading) (retrain : bool)
    (s s' : Main.session_state) (r : Main.anomaly_result) :
  Main.detect_anomalies data retrain s = (Ok (Some r), s') ->
  (10 <= length data)%nat.
Proof.
  intros Hrun. destruct (Nat.lt_ge_cases (length data) 10) as [Hlt|Hge]; [|exact Hge].
  rewrite detect_anomalies_short in Hrun by exact Hlt. discriminate.
Qed.

End anomaly_facts.

Section anomaly_claims.
Context `{Main.Libraries}.

(** The anomaly step of the loop on a window that is refitted. *)
Lemma detect_stage_refit (init : list Main.reading) (latest : Main.reading)
    (s : Main.session_state) :
  Main.historical_data s = init ++ [latest] ->
  (10 <= length (init ++ [latest]))%nat ->
  (length (init ++ [latest]) mod 10 = 0)%nat \/ Main.anomaly_detector s = None ->
  exists s1,
    Main.detect_stage s = (Ok tt, s1) /\
    Main.anomaly_detector s1 = Some (fitted_on (map feature_values (init ++ [latest]))) /\
    Main.anomaly_threshold s1 = Some (threshold_of (map feature_values (init ++ [latest]))).
Proof.
  intros Hdata Hlen Hre. unfold Main.detect_stage.
  unfold Main.bind at 1. unfold Main.get at 1.
  rewrite Hdata. apply Nat.leb_le in Hlen as Hleb. rewrite Hleb.
  unfold Main.bind at 1. rewrite detect_anomalies_refit; [|exact Hlen|].
  - cbv [Main.bind Main.modify Main.ret].
    destruct (Main.is_anomaly _); eexists; (split; [reflexivity|]); split; reflexivity.
  - destruct Hre as [Hmod|Hnone]; [left|right; exact Hnone].
    apply Nat.eqb_eq. exact Hmod.
Qed.

(** C1.  A window of fewer than ten readings is never scored:
    [detect_anomalies] returns [None], with no score and no flag, and leaves
    the session (forest and threshold included) as it was; the monitoring
    loop's anomaly step does nothing on such a window. *)
Theorem short_window_insufficient_data (data : list Main.reading) (retrain : bool)
    (s : Main.session_state) :
  (length data < 10)%nat ->
  Main.detect_anomalies data retrain s = (Ok None, s) /\
  (Main.historical_data s = data -> Main.detect_stage s = (Ok tt, s)).
Proof.
  intros Hlen. split.
  - apply detect_anomalies_short. exact Hlen.
  - intros Hdata. unfold Main.detect_stage.
    unfold Main.bind at 1. unfold Main.get at 1. rewrite Hdata.
    apply Nat.leb_gt in Hlen. rewrite Hlen. reflexivity.
Qed.

(** Where the code refits.  On a window of at least ten readings, a call
    that retrains (the loop asks for it when the length is a multiple of
    ten) or that finds no forest object in the session
    ([anomaly_detector is None]) fits a fresh forest on the rows of the whole
    window, and in the same call publishes as threshold the 10th percentile
    of the scores this forest gives to those rows; the latest reading is
    then scored by this forest against this threshold. *)
Lemma retrain_refits_whole_window (data : list Main.reading) (retrain : bool)
    (s : Main.session_state) :
  (10 <= length data)%nat ->
  let X := map feature_values data in
  let m := Main.IsolationForest_fit 0.1%float 100 X in
  let threshold := Main.np_percentile (map (Main.score_sample m) X) 10%float in
  (retrain = true \/ Main.anomaly_detector s = None ->
   exists r s' latest,
     Main.detect_anomalies data retrain s = (Ok (Some r), s') /\
     Main.anomaly_detector s' =
       Some {| Main.contamination := 0.1%float; Main.n_estimators := 100;
               Main.estimators_ := Some m |} /\
     Main.anomaly_threshold s' = Some threshold /\
     last data = Some latest /\
     Main.is_anomaly r =
       PrimFloat.ltb (Main.score_sample m (feature_values latest)) threshold) /\
  (Main.historical_data s = data ->
   (length data mod 10 = 0)%nat \/ Main.anomaly_detector s = None ->
   exists s',
     Main.detect_stage s = (Ok tt, s') /\
     Main.anomaly_detector s' =
       Some {| Main.contamination := 0.1%float; Main.n_estimators := 100;
               Main.estimators_ := Some m |} /\
     Main.anomaly_threshold s' = Some threshold).
Proof.
  intros Hlen X m threshold.
  destruct (window_has_last data Hlen) as [latest Hlast].
  destruct (last_snoc_inv data latest Hlast) as [init ->].
  split.
  - intros Hre. eexists _, _, latest.
    split; [apply detect_anomalies_refit; assumption|].
    repeat split; try reflexivity. exact Hlast.
  - intros Hdata Hre.
    destruct (detect_stage_refit init latest s Hdata Hlen Hre) as (s1 & Hrun & Hd & Ht).
    exists s1. repeat split; assumption.
Qed.

End anomaly_claims.

(** The concrete windows below are run with the libraries of [Reference]. *)
#[local] Existing Instance Reference.libraries.

(** C1 on nine identical readings. *)
Lemma short_window_insufficient_data_witness :
  (length Reference.nine_readings < 10)%nat /\
  Main.detect_anomalies Reference.nine_readings true Main.initial_state =
    (Ok None, Main.initial_state).
Proof.
  assert (Hlen : (length Reference.nine_readings < 10)%nat) by (vm_compute; lia).
  split; [exact Hlen|].
  exact (proj1 (short_window_insufficient_data Reference.nine_readings true
                  Main.initial_state Hlen)).
Defined.

(** The refit on ten readings, from the initial session. *)
Lemma retrain_refits_whole_window_witness :
  (10 <= length Reference.ten_readings)%nat /\
  exists r s' latest,
    Main.detect_anomalies Reference.ten_readings true Main.initial_state =
      (Ok (Some r), s') /\
    Main.anomaly_threshold s' = Some (-0.381)%float /\
    last Reference.ten_readings = Some latest /\
    Main.is_anomaly r = true.
Proof.
  assert (Hlen : (10 <= length Reference.ten_readings)%nat) by (vm_compute; lia).
  split; [exact Hlen|].
  destruct (proj1 (retrain_refits_whole_window Reference.ten_readings true
                     Main.initial_state Hlen) (or_introl eq_refl))
    as (r & s' & latest & Hrun & _ & Ht & Hlast & Hflag).
  exists r, s', latest. repeat split; [exact Hrun| |exact Hlast|].
  - rewrite Ht. vm_compute. reflexivity.
  - rewrite Hflag. injection Hlast as <-. vm_compute. reflexivity.
Defined.

(** C2.  The refit does not happen on every call that finds no fitted
    model.  [detect_anomalies] is marked "Initialize or retrain detector if
    needed", but it tests only whether the session holds a forest object.
    After "Apply Settings" (whatever the contamination [c] and the number of
    trees [n]) the session holds an object that was never fitted; a call on
    a window of eleven readings, for which the loop does not ask for a
    retrain, finds that object, does not fit it, and raises [NotFittedError]
    when it scores the latest reading.  The session is left as it was: the
    object is still unfitted and the threshold is still the one of the
    forest that the settings replaced.  Had the session held no object, the
    same call would have fitted a forest on the eleven readings. *)
Theorem unfitted_forest_is_scored_without_refit (c : float) (n : Z) :
  let s := Main.apply_settings c n Reference.ten_session in
  (10 <= length Reference.eleven_readings)%nat /\
  (length Reference.eleven_readings mod 10 =? 0)%nat = false /\
  Main.anomaly_detector s =
    Some {| Main.contamination := c; Main.n_estimators := n; Main.estimators_ := None |} /\
  Main.detect_anomalies Reference.eleven_readings false s = (Raise NotFittedError, s) /\
  Main.anomaly_threshold s = Main.anomaly_threshold Reference.ten_session /\
  Main.detect_stage (Main.set_historical_data Reference.eleven_readings s) =
    (Raise NotFittedError, Main.set_historical_data Reference.eleven_readings s) /\
  Main.anomaly_detector
    (snd (Main.detect_anomalies Reference.eleven_readings false
            (Main.set_anomaly_detector None s))) =
    Some (fitted_on (map feature_values Reference.eleven_readings)).
Proof.
  intros s. subst s.
  split; [vm_compute; lia|].
  repeat split; vm_compute; reflexivity.
Qed.

(** * The forest and the threshold stay of one generation *)

Section generations.
Context `{Main.Libraries}.

Lemma same_generation_ext (s s' : Main.session_state) :
  Main.anomaly_detector s' = Main.anomaly_detector s ->
  Main.anomaly_threshold s' = Main.anomaly_threshold s ->
  same_generation s -> same_generation s'.
Proof.
  intros Hd Ht Hs d m Hd' Hm. rewrite Hd in Hd'. rewrite Ht. eauto.
Qed.

Lemma same_generation_refitted (X : list (list float)) (s : Main.session_state) :
  same_generation (refitted X s).
Proof.
  intros d m Hd Hm. cbn in Hd. injection Hd as <-. cbn in Hm. injection Hm as <-.
  exists X. split; reflexivity.
Qed.

Lemma same_generation_detect (data : list Main.reading) (retrain : bool)
    (s : Main.session_state) :
  same_generation s -> same_generation (snd (Main.detect_anomalies data retrain s)).
Proof.
  intros Hs. destruct (Nat.lt_ge_cases (length data) 10) as [Hlt|Hge].
  { rewrite detect_anomalies_short by exact Hlt. exact Hs. }
  destruct (window_has_last data Hge) as [latest Hlast].
  destruct (last_snoc_inv data latest Hlast) as [init ->].
  destruct retrain.
  { rewrite detect_anomalies_refit by auto. apply same_generation_refitted. }
  destruct (Main.anomaly_detector s) as [d|] eqn:Hd.
  - rewrite (detect_anomalies_reuse init latest s d Hge Hd).
    destruct (Main.estimators_ d); [destruct (Main.anomaly_threshold s)|]; exact Hs.
  - rewrite detect_anomalies_refit by auto. apply same_generation_refitted.
Qed.

Lemma same_generation_detect_stage (s : Main.session_state) :
  same_generation s -> same_generation (snd (Main.detect_stage s)).
Proof.
  intros Hs. unfold Main.detect_stage.
  unfold Main.bind at 1. unfold Main.get at 1.
  destruct (10 <=? length (Main.historical_data s))%nat; [|exact Hs].
  unfold Main.bind at 1.
  pose proof (same_generation_detect (Main.historical_data s)
                (length (Main.historical_data s) mod 10 =? 0)%nat s Hs) as Hs1.
  destruct (Main.detect_anomalies _ _ s) as [[[r|]|e] s1]; cbn [snd] in Hs1.
  - cbv [Main.bind Main.modify Main.ret].
    destruct (Main.is_anomaly r); cbn [snd];
      (eapply same_generation_ext; [| |exact Hs1]; reflexivity).
  - exact Hs1.
  - exact Hs1.
Qed.

Lemma same_generation_iteration (config : option Main.feature_config)
    (classifier : option (Pandas.row -> exc string)) (r : Main.reading)
    (s : Main.session_state) :
  same_generation s -> same_generation (Main.monitoring_iteration config classifier r s).
Proof.
  intros Hs. unfold Main.monitoring_iteration, Main.monitoring_body.
  unfold Main.bind at 1. unfold Main.lift at 1.
  destruct (Main.prepare_features config (Main.DataFrame_of_reading r)) as [pred_data|e].
  2: { eapply same_generation_ext; [| |exact Hs]; reflexivity. }
  unfold Main.bind at 1. unfold Main.lift at 1.
  destruct (Main.predict_severity classifier pred_data) as [label|e].
  2: { eapply same_generation_ext; [| |exact Hs]; reflexivity. }
  cbv [Main.bind Main.modify].
  match goal with
  | |- context [Main.detect_stage ?s2] =>
      assert (Hs2 : same_generation s2)
        by (eapply same_generation_ext; [| |exact Hs]; reflexivity);
      pose proof (same_generation_detect_stage s2 Hs2) as Hs3;
      destruct (Main.detect_stage s2) as [[[]|e] s3]
  end; cbn [snd] in Hs3.
  - exact Hs3.
  - eapply same_generation_ext; [| |exact Hs3]; reflexivity.
Qed.

Lemma same_generation_settings (c : float) (n : Z) (s : Main.session_state) :
  same_generation (Main.apply_settings c n s).
Proof.
  intros d m Hd Hm. cbn in Hd. injection Hd as <-. discriminate Hm.
Qed.

Lemma reachable_same_generation (s : Main.session_state) :
  reachable s -> same_generation s.
Proof.
  induction 1 as [|s s' _ IH Hstep].
  - intros d m Hd. discriminate Hd.
  - destruct Hstep.
    + apply same_generation_detect. exact IH.
    + apply same_generation_iteration. exact IH.
    + apply same_generation_settings.
Qed.

(** C3.  In every session the monitor can reach, a call of
    [detect_anomalies] that returns a result leaves in the session a fitted
    forest and a threshold of one generation: the threshold is the
    percentile of the scores this forest gave to the rows [X] it was fitted
    on.  The flag of the result compares the score this forest gives to the
    latest reading with this threshold.  When the call retrains, [X] is the
    current window; when it does not, the session is left as it was, so the
    forest is the one of the most recent fit. *)
Theorem score_and_threshold_same_generation (s : Main.session_state)
    (data : list Main.reading) (retrain : bool) (r : Main.anomaly_result)
    (s' : Main.session_state) :
  reachable s ->
  Main.detect_anomalies data retrain s = (Ok (Some r), s') ->
  exists d m X latest,
    Main.anomaly_detector s' = Some d /\
    Main.estimators_ d = Some m /\
    m = Main.IsolationForest_fit (Main.contamination d) (Main.n_estimators d) X /\
    Main.anomaly_threshold s' =
      Some (Main.calculate_anomaly_threshold (map (Main.score_sample m) X)) /\
    last data = Some latest /\
    Main.is_anomaly r =
      PrimFloat.ltb (Main.score_sample m (feature_values latest))
                    (Main.calculate_anomaly_threshold (map (Main.score_sample m) X)) /\
    (retrain = true \/ Main.anomaly_detector s = None -> X = map feature_values data) /\
    (retrain = false -> Main.anomaly_detector s <> None -> s' = s).
Proof.
  intros Hreach Hrun.
  pose proof (reachable_same_generation s Hreach) as Hgen.
  pose proof (detect_anomalies_some_long _ _ _ _ _ Hrun) as Hlen.
  destruct (window_has_last data Hlen) as [latest Hlast].
  destruct (last_snoc_inv data latest Hlast) as [init ->].
  assert (Hcase : (retrain = true \/ Main.anomaly_detector s = None) \/
                  (retrain = false /\ exists d, Main.anomaly_detector s = Some d)).
  { destruct retrain; [auto|]. destruct (Main.anomaly_detector s); eauto. }
  destruct Hcase as [Hre | [-> [d Hd]]].
  - rewrite detect_anomalies_refit in Hrun by assumption.
    injection Hrun as <- <-.
    eexists _, _, (map feature_values (init ++ [latest])), latest.
    repeat split; try reflexivity; try exact Hlast.
    intros ->. destruct Hre as [?|Hnone]; [discriminate|]. intros Hd. contradiction.
  - rewrite (detect_anomalies_reuse init latest s d Hlen Hd) in Hrun.
    destruct (Main.estimators_ d) as [m|] eqn:Hm; [|discriminate].
    destruct (Main.anomaly_threshold s) as [threshold|] eqn:Ht; [|discriminate].
    injection Hrun as <- <-.
    destruct (Hgen d m Hd Hm) as (X & HX & Hthr).
    rewrite Ht in Hthr. injection Hthr as ->.
    exists d, m, X, latest.
    repeat split; try assumption; try reflexivity.
    intros [?|Hnone]; [discriminate|]. rewrite Hnone in Hd. discriminate.
Qed.

End generations.

(** C3 on ten readings, from the initial session. *)
Lemma score_and_threshold_same_generation_witness :
  exists r s',
    reachable Main.initial_state /\
    Main.detect_anomalies Reference.ten_readings true Main.initial_state =
      (Ok (Some r), s') /\
    exists d m X latest,
      Main.anomaly_detector s' = Some d /\
      Main.estimators_ d = Some m /\
      m = Main.IsolationForest_fit (Main.contamination d) (Main.n_estimators d) X /\
      Main.anomaly_threshold s' =
        Some (Main.calculate_anomaly_threshold (map (Main.score_sample m) X)) /\
      last Reference.ten_readings = Some latest /\
      Main.is_anomaly r =
        PrimFloat.ltb (Main.score_sample m (feature_values latest))
                      (Main.calculate_anomaly_threshold (map (Main.score_sample m) X)) /\
      (true = true \/ Main.anomaly_detector Main.initial_state = None ->
       X = map feature_values Reference.ten_readings) /\
      (true = false -> Main.anomaly_detector Main.initial_state <> None ->
       s' = Main.initial_state).
Proof.
  assert (Hrun : Main.detect_anomalies Reference.ten_readings true Main.initial_state =
                 (Ok (Some (fst (match Main.detect_anomalies Reference.ten_readings true
                                          Main.initial_state with
                                  | (Ok (Some r), s') => (r, s')
                                  | _ => (Main.mk_result false 0%float [], Main.initial_state)
                                  end))),
                  snd (match Main.detect_anomalies Reference.ten_readings true
                               Main.initial_state with
                       | (Ok (Some r), s') => (r, s')
                       | _ => (Main.mk_result false 0%float [], Main.initial_state)
                       end)))
    by (vm_compute; reflexivity).
  eexists _, _. split; [apply reachable_initial|]. split; [exact Hrun|].
  exact (score_and_threshold_same_generation Main.initial_state Reference.ten_readings
           true _ _ reachable_initial Hrun).
Defined.

(** * What a result holds *)

Section results.
Context `{Main.Libraries}.

(** Every result is [result_of] the forest and the threshold that the call
    leaves in the session. *)
Lemma detect_anomalies_result (init : list Main.reading) (latest : Main.reading)
    (retrain : bool) (s s' : Main.session_state) (r : Main.anomaly_result) :
  Main.detect_anomalies (init ++ [latest]) retrain s = (Ok (Some r), s') ->
  exists d m threshold,
    Main.anomaly_detector s' = Some d /\
    Main.estimators_ d = Some m /\
    Main.anomaly_threshold s' = Some threshold /\
    r = result_of m threshold (init ++ [latest]) latest.
Proof.
  intros Hrun. pose proof (detect_anomalies_some_long _ _ _ _ _ Hrun) as Hlen.
  assert (Hcase : (retrain = true \/ Main.anomaly_detector s = None) \/
                  (retrain = false /\ exists d, Main.anomaly_detector s = Some d)).
  { destruct retrain; [auto|]. destruct (Main.anomaly_detector s); eauto. }
  destruct Hcase as [Hre | [-> [d Hd]]].
  - rewrite detect_anomalies_refit in Hrun by assumption.
    injection Hrun as <- <-. eexists _, _, _. repeat split; reflexivity.
  - rewrite (detect_anomalies_reuse init latest s d Hlen Hd) in Hrun.
    destruct (Main.estimators_ d) as [m|] eqn:Hm; [|discriminate].
    destruct (Main.anomaly_threshold s) as [threshold|] eqn:Ht; [|discriminate].
    injection Hrun as <- <-. exists d, m, threshold. repeat split; assumption.
Qed.

(** A call returns a result whenever it refits or finds a fitted forest
    with its threshold. *)
Lemma detect_anomalies_returns (data : list Main.reading) (retrain : bool)
    (s : Main.session_state) :
  (10 <= length data)%nat ->
  retrain = true \/ Main.anomaly_detector s = None \/
  (exists d m, Main.anomaly_detector s = Some d /\ Main.estimators_ d = Some m /\
               reachable s) ->
  exists r s', Main.detect_anomalies data retrain s = (Ok (Some r), s').
Proof.
  intros Hlen Hcase.
  destruct (window_has_last data Hlen) as [latest Hlast].
  destruct (last_snoc_inv data latest Hlast) as [init ->].
  destruct retrain.
  { rewrite detect_anomalies_refit by auto. eauto. }
  destruct Hcase as [?|[Hnone|(d & m & Hd & Hm & Hreach)]]; [discriminate| |].
  - rewrite detect_anomalies_refit by auto. eauto.
  - rewrite (detect_anomalies_reuse init latest s d Hlen Hd), Hm.
    destruct (reachable_same_generation s Hreach d m Hd Hm) as (X & _ & ->). eauto.
Qed.

(** C4, as amended.  On a window of at least ten readings a result is
    returned whenever the call refits or the session holds a fitted forest.
    Its [anomaly_score] field holds the sigmoid of the raw score, that is
    [1 / (1 + exp(-score))], and not the raw score, which is not returned;
    [is_anomaly] is true exactly when the raw score is below the threshold
    of the session, so the sigmoid value has no part in the detection. *)
Theorem result_holds_sigmoid_of_raw_score (data : list Main.reading) (retrain : bool)
    (s : Main.session_state) :
  (10 <= length data)%nat ->
  (retrain = true \/ Main.anomaly_detector s = None \/
   (exists d m, Main.anomaly_detector s = Some d /\ Main.estimators_ d = Some m /\
                reachable s) ->
   exists r s', Main.detect_anomalies data retrain s = (Ok (Some r), s')) /\
  (forall r s',
     Main.detect_anomalies data retrain s = (Ok (Some r), s') ->
     exists d m threshold latest,
       Main.anomaly_detector s' = Some d /\
       Main.estimators_ d = Some m /\
       Main.anomaly_threshold s' = Some threshold /\
       last data = Some latest /\
       Main.anomaly_score r =
         PrimFloat.div 1%float
           (PrimFloat.add 1%float
              (Main.np_exp (PrimFloat.opp (Main.score_sample m (feature_values latest))))) /\
       Main.is_anomaly r =
         PrimFloat.ltb (Main.score_sample m (feature_values latest)) threshold).
Proof.
  intros Hlen. split; [apply detect_anomalies_returns; exact Hlen|].
  intros r s' Hrun.
  destruct (window_has_last data Hlen) as [latest Hlast].
  destruct (last_snoc_inv data latest Hlast) as [init ->].
  destruct (detect_anomalies_result init latest retrain s s' r Hrun)
    as (d & m & threshold & Hd & Hm & Ht & ->).
  exists d, m, threshold, latest. repeat split; assumption || reflexivity.
Qed.

(** C5, as amended.  For a scored window and each base feature, the flag of
    the latest reading is 1 when the distance of its value from the mean of
    that feature over the whole current window exceeds twice the standard
    deviation of that feature over the window, and 0 otherwise; the mean and
    the standard deviation are computed from the window at each call, and
    the standard deviation is the sample one (divisor [n - 1]).  The sums
    behind the mean and the deviation are NumPy's ([Main.np_sum]), in
    whatever order NumPy adds. *)
Theorem feature_flag_two_sample_deviations (data : list Main.reading) (retrain : bool)
    (s s' : Main.session_state) (r : Main.anomaly_result) (latest : Main.reading) :
  (10 <= length data)%nat ->
  Main.detect_anomalies data retrain s = (Ok (Some r), s') ->
  last data = Some latest ->
  forall j feat,
    Main.feature_columns !! j = Some feat ->
    let col := map (fun x => nth j (feature_values x) nan) data in
    let value := nth j (feature_values latest) nan in
    exists z,
      Main.features r !! j = Some (feat, z) /\
      (z = 1%Z <->
       PrimFloat.ltb
         (PrimFloat.mul 2%float (PrimFloat.sqrt (Pandas.var Main.np_sum 1 col)))
         (PrimFloat.abs (PrimFloat.sub value (Pandas.mean Main.np_sum col))) = true) /\
      (z = 0%Z <->
       PrimFloat.ltb
         (PrimFloat.mul 2%float (PrimFloat.sqrt (Pandas.var Main.np_sum 1 col)))
         (PrimFloat.abs (PrimFloat.sub value (Pandas.mean Main.np_sum col))) = false).
Proof.
  intros _ Hrun Hlast j feat Hfeat col value.
  destruct (last_snoc_inv data latest Hlast) as [init ->].
  destruct (detect_anomalies_result init latest retrain s s' r Hrun)
    as (d & m & threshold & _ & _ & _ & ->).
  unfold result_of. cbn [Main.features].
  assert (Hflag : forall b : bool,
             ((if b then 1%Z else 0%Z) = 1%Z <-> b = true) /\
             ((if b then 1%Z else 0%Z) = 0%Z <-> b = false)).
  { intros []; split; split; intros; (reflexivity || discriminate). }
  do 4 (destruct j as [|j];
        [injection Hfeat as <-; eexists; split; [reflexivity|]; apply Hflag|]).
  discriminate Hfeat.
Qed.

(** C9.  The frame the forest is fitted on and scores has exactly the four
    base columns of the window; two windows that agree on these columns get
    the same outcome, whatever else their readings hold.  Every result is
    computed from the score that the forest of the session gives to the
    four base values of the latest reading (its [is_anomaly] compares this
    score with the threshold, its [anomaly_score] is the sigmoid of it) and
    has one flag for each of the four names.  A refit fits the forest on
    the rows of four base values, takes the threshold from the scores of
    these same rows, and returns such a result; a call that finds a fitted
    forest and a threshold returns such a result with them. *)
Theorem outlier_model_sees_base_features (data data' : list Main.reading)
    (retrain : bool) (s : Main.session_state) :
  map feature_values data = map feature_values data' ->
  let base (x : Main.reading) :=
    [Main.temperature_C x; Main.humidity_pct x; Main.ammonia_ppm x; Main.ph x] in
  Main.DataFrame_select data Main.feature_columns =
    Ok {| Main.header := ["temperature_C"; "humidity_%"; "ammonia_ppm"; "ph"];
          Main.body :=
            map (fun x => [Main.temperature_C x; Main.humidity_pct x; Main.ammonia_ppm x;
                           Main.ph x]) data |} /\
  Main.detect_anomalies data retrain s = Main.detect_anomalies data' retrain s /\
  (forall r s',
     Main.detect_anomalies data retrain s = (Ok (Some r), s') ->
     map fst (Main.features r) = ["temperature_C"; "humidity_%"; "ammonia_ppm"; "ph"]) /\
  ((10 <= length data)%nat ->
   retrain = true \/ Main.anomaly_detector s = None ->
   Main.anomaly_detector (snd (Main.detect_anomalies data retrain s)) =
     Some (fitted_on (map feature_values data))) /\
  (forall r s',
     Main.detect_anomalies data retrain s = (Ok (Some r), s') ->
     exists d m threshold latest,
       Main.anomaly_detector s' = Some d /\
       Main.estimators_ d = Some m /\
       Main.anomaly_threshold s' = Some threshold /\
       last data = Some latest /\
       Main.is_anomaly r = PrimFloat.ltb (Main.score_sample m (base latest)) threshold /\
       Main.anomaly_score r =
         PrimFloat.div 1%float
           (PrimFloat.add 1%float
              (Main.np_exp (PrimFloat.opp (Main.score_sample m (base latest)))))) /\
  ((10 <= length data)%nat ->
   retrain = true \/ Main.anomaly_detector s = None ->
   let m := Main.IsolationForest_fit 0.1%float 100 (map base data) in
   let threshold := Main.np_percentile (map (Main.score_sample m) (map base data)) 10%float in
   exists r s' latest,
     Main.detect_anomalies data retrain s = (Ok (Some r), s') /\
     last data = Some latest /\
     Main.anomaly_detector s' =
       Some {| Main.contamination := 0.1%float; Main.n_estimators := 100;
               Main.estimators_ := Some m |} /\
     Main.anomaly_threshold s' = Some threshold /\
     Main.is_anomaly r = PrimFloat.ltb (Main.score_sample m (base latest)) threshold /\
     Main.anomaly_score r =
       PrimFloat.div 1%float
         (PrimFloat.add 1%float
            (Main.np_exp (PrimFloat.opp (Main.score_sample m (base latest)))))) /\
  ((10 <= length data)%nat ->
   retrain = false ->
   forall d m threshold,
     Main.anomaly_detector s = Some d ->
     Main.estimators_ d = Some m ->
     Main.anomaly_threshold s = Some threshold ->
     exists r latest,
       Main.detect_anomalies data retrain s = (Ok (Some r), s) /\
       last data = Some latest /\
       Main.is_anomaly r = PrimFloat.ltb (Main.score_sample m (base latest)) threshold /\
       Main.anomaly_score r =
         PrimFloat.div 1%float
           (PrimFloat.add 1%float
              (Main.np_exp (PrimFloat.opp (Main.score_sample m (base latest)))))).
Proof.
  intros Hsame base. split; [apply DataFrame_select_features|].
  split; [|split; [|split; [|split; [|split]]]].
  - assert (Hlen : length data = length data').
    { rewrite <- (length_map feature_values data), Hsame. apply length_map. }
    unfold Main.detect_anomalies. rewrite Hlen.
    destruct (length data' <? 10)%nat; [reflexivity|].
    rewrite !DataFrame_select_features, Hsame. reflexivity.
  - intros r s' Hrun.
    pose proof (detect_anomalies_some_long _ _ _ _ _ Hrun) as Hlen.
    destruct (window_has_last data Hlen) as [latest Hlast].
    destruct (last_snoc_inv data latest Hlast) as [init ->].
    destruct (detect_anomalies_result init latest retrain s s' r Hrun)
      as (d & m & threshold & _ & _ & _ & ->).
    reflexivity.
  - intros Hlen Hre.
    destruct (window_has_last data Hlen) as [latest Hlast].
    destruct (last_snoc_inv data latest Hlast) as [init ->].
    rewrite detect_anomalies_refit by assumption. reflexivity.
  - intros r s' Hrun.
    pose proof (detect_anomalies_some_long _ _ _ _ _ Hrun) as Hlen.
    destruct (window_has_last data Hlen) as [latest Hlast].
    destruct (last_snoc_inv data latest Hlast) as [init ->].
    destruct (detect_anomalies_result init latest retrain s s' r Hrun)
      as (d & m & threshold & Hd & Hm & Ht & ->).
    exists d, m, threshold, latest. repeat split; assumption || reflexivity.
  - intros Hlen Hre m threshold.
    destruct (window_has_last data Hlen) as [latest Hlast].
    destruct (last_snoc_inv data latest Hlast) as [init ->].
    eexists _, _, latest.
    split; [apply detect_anomalies_refit; assumption|].
    repeat split; try reflexivity. exact Hlast.
  - intros Hlen -> d m threshold Hd Hm Ht.
    destruct (window_has_last data Hlen) as [latest Hlast].
    destruct (last_snoc_inv data latest Hlast) as [init ->].
    rewrite (detect_anomalies_reuse init latest s d Hlen Hd), Hm, Ht.
    eexists _, latest. split; [reflexivity|].
    repeat split; try reflexivity. exact Hlast.
Qed.

End results.

(** The run of [detect_anomalies] that the concrete statements use. *)
Lemma ten_readings_run :
  Main.detect_anomalies Reference.ten_readings true Main.initial_state =
  (Ok (Some Reference.ten_result), Reference.ten_session).
Proof. vm_compute. reflexivity. Qed.

Lemma ten_readings_length : (10 <= length Reference.ten_readings)%nat.
Proof. vm_compute. lia. Qed.

(** C4 on ten readings: a result is returned. *)
Lemma result_holds_sigmoid_of_raw_score_witness :
  (10 <= length Reference.ten_readings)%nat /\
  exists r s',
    Main.detect_anomalies Reference.ten_readings true Main.initial_state = (Ok (Some r), s').
Proof.
  split; [exact ten_readings_length|].
  exact (proj1 (result_holds_sigmoid_of_raw_score Reference.ten_readings true
                  Main.initial_state ten_readings_length) (or_introl eq_refl)).
Defined.

(** C4 as stated fails on ten readings: the raw score of the latest reading
    is -0.39, below the threshold -0.381, and the reading is flagged; the
    [anomaly_score] field holds 0.4037, which is not the raw score and is
    not below the threshold. *)
Lemma result_score_field_is_not_raw_score :
  Main.detect_anomalies Reference.ten_readings true Main.initial_state =
    (Ok (Some Reference.ten_result), Reference.ten_session) /\
  last Reference.ten_readings = Some (Reference.sample 34 60 12 7) /\
  Main.anomaly_detector Reference.ten_session =
    Some (fitted_on (map feature_values Reference.ten_readings)) /\
  Main.anomaly_threshold Reference.ten_session = Some (-0.38100000000000001)%float /\
  Main.score_sample (Main.IsolationForest_fit 0.1%float 100
                       (map feature_values Reference.ten_readings))
                    (feature_values (Reference.sample 34 60 12 7)) = (-0.38999999999999996)%float /\
  Main.is_anomaly Reference.ten_result = true /\
  Main.anomaly_score Reference.ten_result <> (-0.38999999999999996)%float /\
  PrimFloat.ltb (Main.anomaly_score Reference.ten_result) (-0.38100000000000001)%float = false.
Proof.
  split; [exact ten_readings_run|].
  do 5 (split; [vm_compute; reflexivity|]).
  split; [|vm_compute; reflexivity].
  intros Heq. apply (f_equal (fun x => PrimFloat.ltb x 0%float)) in Heq.
  vm_compute in Heq. discriminate Heq.
Qed.

(** C5 on ten readings. *)
Lemma feature_flag_two_sample_deviations_witness :
  exists z,
    Main.features Reference.ten_result !! 0%nat = Some ("temperature_C", z) /\
    (z = 1%Z <->
     PrimFloat.ltb
       (PrimFloat.mul 2%float
          (PrimFloat.sqrt
             (Pandas.var Main.np_sum 1 (map (fun x => nth 0 (feature_values x) nan)
                                            Reference.ten_readings))))
       (PrimFloat.abs
          (PrimFloat.sub (nth 0 (feature_values (Reference.sample 34 60 12 7)) nan)
             (Pandas.mean Main.np_sum (map (fun x => nth 0 (feature_values x) nan)
                                           Reference.ten_readings)))) = true) /\
    (z = 0%Z <->
     PrimFloat.ltb
       (PrimFloat.mul 2%float
          (PrimFloat.sqrt
             (Pandas.var Main.np_sum 1 (map (fun x => nth 0 (feature_values x) nan)
                                            Reference.ten_readings))))
       (PrimFloat.abs
          (PrimFloat.sub (nth 0 (feature_values (Reference.sample 34 60 12 7)) nan)
             (Pandas.mean Main.np_sum (map (fun x => nth 0 (feature_values x) nan)
                                           Reference.ten_readings)))) = false).
Proof.
  exact (feature_flag_two_sample_deviations Reference.ten_readings true
           Main.initial_state Reference.ten_session Reference.ten_result
           (Reference.sample 34 60 12 7) ten_readings_length ten_readings_run
           eq_refl 0%nat "temperature_C" eq_refl).
Defined.

(** C5 as stated fails on ten readings.  Their temperatures have mean 30;
    the latest is 34, at distance 4.  Twice the population deviation is
    3.90, so the population test holds; twice the sample deviation is 4.11,
    and the flag of the result is 0.  The sums involved (300 for the
    temperatures, 38 for the squared deviations) are exact, so the order of
    the additions plays no part here. *)
Lemma feature_flag_is_not_population_test :
  Main.detect_anomalies Reference.ten_readings true Main.initial_state =
    (Ok (Some Reference.ten_result), Reference.ten_session) /\
  last Reference.ten_readings = Some (Reference.sample 34 60 12 7) /\
  map Main.temperature_C Reference.ten_readings = Reference.ten_temperatures /\
  Main.features Reference.ten_result !! 0%nat = Some ("temperature_C", 0%Z) /\
  Pandas.mean Main.np_sum Reference.ten_temperatures = 30%float /\
  Pandas.std_population Main.np_sum Reference.ten_temperatures = 1.9493588689617927%float /\
  Pandas.std Main.np_sum Reference.ten_temperatures = 2.0548046676563256%float /\
  deviates_population Reference.ten_temperatures 34%float = true /\
  deviates Reference.ten_temperatures 34%float = false.
Proof.
  split; [exact ten_readings_run|].
  repeat split; vm_compute; reflexivity.
Qed.

(** C9 on two windows that differ only in the score written back on the
    latest reading: they get the same outcome, and the refit scores the four
    base values 34, 60, 12 and 7 of the latest reading, at -0.39, against
    the threshold -0.381 of the ten base rows. *)
Lemma outlier_model_sees_base_features_witness :
  Main.annotate_latest 0.5%float Reference.ten_readings <> Reference.ten_readings /\
  Main.detect_anomalies Reference.ten_readings true Main.initial_state =
  Main.detect_anomalies (Main.annotate_latest 0.5%float Reference.ten_readings) true
    Main.initial_state /\
  exists r s' latest,
    Main.detect_anomalies Reference.ten_readings true Main.initial_state =
      (Ok (Some r), s') /\
    last Reference.ten_readings = Some latest /\
    Main.anomaly_detector s' =
      Some {| Main.contamination := 0.1%float; Main.n_estimators := 100;
              Main.estimators_ := Some [30; 60; 12; 7]%float |} /\
    Main.anomaly_threshold s' = Some (-0.38100000000000001)%float /\
    Main.is_anomaly r =
      PrimFloat.ltb (Main.score_sample [30; 60; 12; 7]%float [34; 60; 12; 7]%float)
                    (-0.38100000000000001)%float /\
    Main.is_anomaly r = true /\
    Main.anomaly_score r = 0.40371730070323208%float.
Proof.
  pose proof (outlier_model_sees_base_features Reference.ten_readings
                (Main.annotate_latest 0.5%float Reference.ten_readings)
                true Main.initial_state eq_refl) as Hall.
  cbv zeta in Hall.
  destruct Hall as (_ & Hsame & _ & _ & _ & Hrefit & _).
  split; [|split; [exact Hsame|]].
  - intros Heq. apply (f_equal (fun l => option_map Main.reading_anomaly_score (last l))) in Heq.
    vm_compute in Heq. discriminate Heq.
  - destruct (Hrefit ten_readings_length (or_introl eq_refl))
      as (r & s' & latest & Hrun & Hlast & Hd & Ht & Hflag & Hscore).
    exists r, s', latest. injection Hlast as <-.
    split; [exact Hrun|]. split; [reflexivity|].
    split; [rewrite Hd; vm_compute; reflexivity|].
    split; [rewrite Ht; vm_compute; reflexivity|].
    split; [rewrite Hflag; vm_compute; reflexivity|].
    split; [rewrite Hflag; vm_compute; reflexivity|].
    rewrite Hscore. vm_compute. reflexivity.
Defined.

(** The order of the additions can decide a flag.  In NumPy's order the ten
    temperatures below have the sum 217 exactly, and the latest, 24.5, is
    flagged; added from left to right their sum is 217.00000000000003, and
    with that sum 24.5 would not be flagged. *)
Remark summation_order_decides_flag :
  let col := [21.0; 21.0; 22.4; 21.7; 20.3; 20.3; 23.1; 20.3; 22.4; 24.5]%float in
  Reference.np_sum col = 217%float /\
  Reference.sequential 0%float col = 217.00000000000003%float /\
  Py.gt (PrimFloat.abs (PrimFloat.sub 24.5%float (Pandas.mean Reference.np_sum col)))
        (PrimFloat.mul 2%float (Pandas.std Reference.np_sum col)) = true /\
  Py.gt (PrimFloat.abs
           (PrimFloat.sub 24.5%float (Pandas.mean (Reference.sequential 0%float) col)))
        (PrimFloat.mul 2%float (Pandas.std (Reference.sequential 0%float) col)) = false /\
  exists r s',
    Main.detect_anomalies (map (fun t => Reference.sample t 60 12 7) col) true
      Main.initial_state = (Ok (Some r), s') /\
    Main.features r !! 0%nat = Some ("temperature_C", 1%Z).
Proof.
  intros col. subst col.
  do 4 (split; [vm_compute; reflexivity|]).
  eexists _, _. split; vm_compute; reflexivity.
Qed.

(** * Training windows of the forecaster *)

Section forecast_facts.
Context {A : Type}.

Lemma clip_index_in_range (n i : Z) : (0 <= i <= n)%Z -> Py.clip_index n i = i.
Proof.
  intros [Hlo Hhi]. unfold Py.clip_index.
  destruct (Z.ltb_spec i 0); lia.
Qed.

(** A slice whose bounds lie in the list is a [take] of a [drop]. *)
Lemma slice_in_range (l : list A) (a len : nat) :
  (a + len <= length l)%nat ->
  Py.slice l (Z.of_nat a) (Z.of_nat a + Z.of_nat len) = take len (drop a l).
Proof.
  intros Hle. unfold Py.slice.
  rewrite !clip_index_in_range by lia.
  replace (Z.to_nat (Z.of_nat a + Z.of_nat len - Z.of_nat a)) with len by lia.
  rewrite Nat2Z.id. reflexivity.
Qed.

Lemma range_lookup (k : Z) (i : nat) :
  (i < Z.to_nat k)%nat -> Py.range k !! i = Some (Z.of_nat i).
Proof.
  intros Hi. unfold Py.range.
  rewrite list_lookup_fmap, lookup_seq_lt by exact Hi. reflexivity.
Qed.

Lemma range_length (k : Z) : length (Py.range k) = Z.to_nat k.
Proof. unfold Py.range. rewrite length_map, length_seq. reflexivity. Qed.

(** C10.  With non-negative lengths [L] and [P] and [n] data points:
    when [n >= L + P], [create_sequences] returns [n - L - P + 1] inputs and
    as many targets, the [i]-th input being the [L] points from index [i]
    on and the [i]-th target the [P] points that follow them; when
    [n < L + P] both lists are empty. *)
Theorem create_sequences_windows (self : Forecast.PoultryForecaster) (data : list A) :
  (0 <= Forecast.sequence_length self)%Z ->
  (0 <= Forecast.prediction_length self)%Z ->
  let L := Z.to_nat (Forecast.sequence_length self) in
  let P := Z.to_nat (Forecast.prediction_length self) in
  let n := length data in
  let X := fst (Forecast.create_sequences self data) in
  let y := snd (Forecast.create_sequences self data) in
  ((L + P <= n)%nat ->
   length X = (n - L - P + 1)%nat /\
   length y = (n - L - P + 1)%nat /\
   forall i, (i < n - L - P + 1)%nat ->
     X !! i = Some (take L (drop i data)) /\
     y !! i = Some (take P (drop (i + L) data)) /\
     length (take L (drop i data)) = L /\
     length (take P (drop (i + L) data)) = P) /\
  ((n < L + P)%nat -> X = [] /\ y = []).
Proof.
  intros HL HP L P n X y.
  assert (HLz : Forecast.sequence_length self = Z.of_nat L) by (subst L; lia).
  assert (HPz : Forecast.prediction_length self = Z.of_nat P) by (subst P; lia).
  subst X y. unfold Forecast.create_sequences. cbn [fst snd].
  rewrite HLz, HPz. fold n.
  split.
  - intros Hn.
    assert (Hk : Z.to_nat (Z.of_nat n - Z.of_nat L - Z.of_nat P + 1) = (n - L - P + 1)%nat)
      by lia.
    rewrite !length_map, range_length, Hk.
    split; [reflexivity|]. split; [reflexivity|].
    intros i Hi.
    rewrite !list_lookup_fmap, range_lookup by lia. cbn [fmap option_fmap option_map].
    rewrite slice_in_range by (fold n; lia).
    replace (Z.of_nat i + Z.of_nat L)%Z with (Z.of_nat (i + L)) by lia.
    rewrite slice_in_range by (fold n; lia).
    repeat split.
    + rewrite length_take, length_drop. fold n. lia.
    + rewrite length_take, length_drop. fold n. lia.
  - intros Hn.
    assert (Hk : Z.to_nat (Z.of_nat n - Z.of_nat L - Z.of_nat P + 1) = 0%nat) by lia.
    unfold Py.range. rewrite Hk. split; reflexivity.
Qed.

End forecast_facts.

(** C10 on five points with inputs of two points and targets of one. *)
Lemma create_sequences_windows_witness :
  Forecast.create_sequences (Forecast.mk_forecaster 2 1) [1; 2; 3; 4; 5]%nat =
    ([[1; 2]; [2; 3]; [3; 4]]%nat, [[3]; [4]; [5]]%nat) /\
  length (fst (Forecast.create_sequences (Forecast.mk_forecaster 2 1) [1; 2; 3; 4; 5]%nat)) =
    3%nat /\
  fst (Forecast.create_sequences (Forecast.mk_forecaster 2 1) [1; 2; 3; 4; 5]%nat) !! 1%nat =
    Some [2; 3]%nat.
Proof.
  split; [vm_compute; reflexivity|].
  assert (HL : (0 <= Forecast.sequence_length (Forecast.mk_forecaster 2 1))%Z)
    by (vm_compute; discriminate).
  assert (HP : (0 <= Forecast.prediction_length (Forecast.mk_forecaster 2 1))%Z)
    by (vm_compute; discriminate).
  assert (Hn : (2 + 1 <= 5)%nat) by lia.
  destruct (proj1 (create_sequences_windows (Forecast.mk_forecaster 2 1)
                     [1; 2; 3; 4; 5]%nat HL HP) Hn) as (Hlen & _ & Hwin).
  split; [exact Hlen|].
  exact (proj1 (Hwin 1%nat ltac:(vm_compute; lia))).
Defined.

(** * One-row frames *)

Section frame_facts.

Lemma getitem_setitem_eq (n : string) (v : float) (df : Pandas.row) :
  Pandas.getitem n (Pandas.setitem n v df) = Ok v.
Proof.
  induction df as [|[c w] rest IH]; cbn.
  - rewrite String.eqb_refl. reflexivity.
  - destruct (String.eqb n c) eqn:Hc; cbn; rewrite Hc; [reflexivity|exact IH].
Qed.

Lemma getitem_setitem_ne (n n' : string) (v : float) (df : Pandas.row) :
  n <> n' -> Pandas.getitem n' (Pandas.setitem n v df) = Pandas.getitem n' df.
Proof.
  intros Hne. induction df as [|[c w] rest IH]; cbn.
  - destruct (String.eqb_spec n' n) as [->|_]; [contradiction|reflexivity].
  - destruct (String.eqb_spec n c) as [->|Hc]; cbn.
    + destruct (String.eqb_spec n' c) as [->|_]; [contradiction|reflexivity].
    + rewrite IH. reflexivity.
Qed.

Lemma columns_setitem (n : string) (v : float) (df : Pandas.row) (c : string) :
  In c (Pandas.columns (Pandas.setitem n v df)) <-> c = n \/ In c (Pandas.columns df).
Proof.
  unfold Pandas.columns. induction df as [|[c' w] rest IH]; cbn.
  - intuition congruence.
  - destruct (String.eqb_spec n c') as [->|Hc]; cbn; [intuition congruence|].
    rewrite IH. intuition congruence.
Qed.

Lemma has_column_In (f : string) (df : Pandas.row) :
  Pandas.has_column f df = true <-> In f (Pandas.columns df).
Proof.
  unfold Pandas.has_column. rewrite existsb_exists. split.
  - intros (c & Hin & Heq). apply String.eqb_eq in Heq. subst c. exact Hin.
  - intros Hin. exists f. split; [exact Hin|apply String.eqb_refl].
Qed.

Lemma getitem_select (names : list string) (df X : Pandas.row) (n : string) (v : float) :
  Pandas.select names df = Ok X ->
  Pandas.getitem n X = Ok v -> Pandas.getitem n df = Ok v.
Proof.
  revert X. induction names as [|n0 names IH]; intros X Hsel Hget; cbn in Hsel.
  - injection Hsel as <-. discriminate Hget.
  - destruct (Pandas.getitem n0 df) as [v0|] eqn:H0; cbn in Hsel; [|discriminate].
    destruct (Pandas.select names df) as [X'|] eqn:Hrest; cbn in Hsel; [|discriminate].
    injection Hsel as <-. cbn in Hget.
    destruct (String.eqb_spec n n0) as [->|_]; [congruence|].
    eapply IH; [reflexivity|exact Hget].
Qed.

(** Engineering succeeds exactly on the columns it reads, and adds the two
    engineered columns to the renamed frame. *)
Lemma engineer_ok (reading : Pandas.row) (t h a : float) :
  Pandas.getitem "temperature_C" (Pandas.rename Explain.ui_to_internal reading) = Ok t ->
  Pandas.getitem "humidity_%" (Pandas.rename Explain.ui_to_internal reading) = Ok h ->
  Pandas.getitem "ammonia_ppm" (Pandas.rename Explain.ui_to_internal reading) = Ok a ->
  Explain.engineer reading =
  Ok (Pandas.setitem "ammonia_temp_ratio" (PrimFloat.div a t)
        (Pandas.setitem "temp_humidity_interaction"
           (PrimFloat.div (PrimFloat.mul t h) 100%float)
           (Pandas.rename Explain.ui_to_internal reading))).
Proof.
  intros Ht Hh Ha. unfold Explain.engineer. rewrite Ht, Hh. cbn [exc_bind].
  rewrite !getitem_setitem_ne by discriminate. rewrite Ha, Ht. reflexivity.
Qed.

Lemma engineer_inv (reading df : Pandas.row) :
  Explain.engineer reading = Ok df ->
  exists t h a,
    Pandas.getitem "temperature_C" (Pandas.rename Explain.ui_to_internal reading) = Ok t /\
    Pandas.getitem "humidity_%" (Pandas.rename Explain.ui_to_internal reading) = Ok h /\
    Pandas.getitem "ammonia_ppm" (Pandas.rename Explain.ui_to_internal reading) = Ok a.
Proof.
  intros Hrun. unfold Explain.engineer in Hrun.
  destruct (Pandas.getitem "temperature_C" _) as [t|] eqn:Ht; [|discriminate].
  destruct (Pandas.getitem "humidity_%" _) as [h|] eqn:Hh; [|discriminate].
  cbn [exc_bind] in Hrun. rewrite !getitem_setitem_ne in Hrun by discriminate.
  destruct (Pandas.getitem "ammonia_ppm" _) as [a|] eqn:Ha; [|discriminate].
  exists t, h, a. repeat split; reflexivity.
Qed.

Lemma engineer_columns (reading df : Pandas.row) (c : string) :
  Explain.engineer reading = Ok df ->
  In c (Pandas.columns df) -> In c (available_columns reading).
Proof.
  intros Hrun Hin. destruct (engineer_inv reading df Hrun) as (t & h & a & Ht & Hh & Ha).
  rewrite (engineer_ok reading t h a Ht Hh Ha) in Hrun. injection Hrun as <-.
  unfold available_columns. rewrite in_app_iff. cbn [In].
  apply columns_setitem in Hin. destruct Hin as [->|Hin]; [auto|].
  apply columns_setitem in Hin. destruct Hin as [->|Hin]; auto.
Qed.

(** A quotient by a zero of either sign is infinite or not a number. *)
Lemma float_zero_spec (t : float) :
  PrimFloat.eqb t 0%float = true -> exists sign, Prim2SF t = S754_zero sign.
Proof.
  rewrite FloatAxioms.eqb_spec. change (Prim2SF 0) with (S754_zero false).
  destruct (Prim2SF t) as [sign|sign| |sign m e]; cbn; try discriminate; eauto.
  all: destruct sign; discriminate.
Qed.

Lemma div_by_zero_not_finite (a t : float) :
  PrimFloat.eqb t 0%float = true -> PrimFloat.is_finite (PrimFloat.div a t) = false.
Proof.
  intros Ht. destruct (float_zero_spec t Ht) as [sign Hsign].
  unfold PrimFloat.is_finite, PrimFloat.is_nan, PrimFloat.is_infinity.
  rewrite !FloatAxioms.eqb_spec, abs_spec, div_spec, Hsign.
  change (Prim2SF infinity) with (S754_infinity false).
  destruct (Prim2SF a) as [sa|sa| |sa m e]; cbn; try reflexivity.
  all: destruct sa, sign; reflexivity.
Qed.

End frame_facts.

(** * Feature engineering *)

Section engineering_claims.

(** C7.  For a reading with a non-zero temperature, [update_history]
    appends a row whose [ammonia_temp_ratio] is the float quotient
    [ammonia / temperature] and whose [temp_humidity_interaction] is
    [temperature * humidity / 100], whenever the classifier returns a label;
    these two values depend on the reading alone, not on the session, the
    clock or the classifier.  The frame [prepare_features] of [main.py]
    returns holds the same two values under these names. *)
Theorem engineered_features_exact (r : Dashboard.sensor_reading) (m : Main.reading) :
  PrimFloat.eqb (Dashboard.temperature r) 0%float = false ->
  (forall classifier now now' s label,
     match classifier with
     | Some predict =>
         predict [Dashboard.temperature r; Dashboard.humidity r; Dashboard.ammonia r;
                  Dashboard.pH r;
                  PrimFloat.div (Dashboard.ammonia r) (Dashboard.temperature r);
                  PrimFloat.div (PrimFloat.mul (Dashboard.temperature r) (Dashboard.humidity r))
                                100%float]
     | None => Ok "Unknown"
     end = Ok label ->
     Dashboard.update_history classifier now now' (Some r) s =
     {| Dashboard.history :=
          Dashboard.history s ++
          [{| Dashboard.entry_timestamp := now;
              Dashboard.entry_temperature := Dashboard.temperature r;
              Dashboard.entry_humidity := Dashboard.humidity r;
              Dashboard.entry_ammonia := Dashboard.ammonia r;
              Dashboard.entry_pH := Dashboard.pH r;
              Dashboard.entry_severity := label;
              Dashboard.ammonia_temp_ratio :=
                PrimFloat.div (Dashboard.ammonia r) (Dashboard.temperature r);
              Dashboard.temp_humidity_interaction :=
                PrimFloat.div (PrimFloat.mul (Dashboard.temperature r) (Dashboard.humidity r))
                              100%float |}];
        Dashboard.last_update := Some now';
        Dashboard.shown_errors := Dashboard.shown_errors s |}) /\
  (forall config X,
     Main.prepare_features (Some config) (Main.DataFrame_of_reading m) = Ok X ->
     (forall v, Pandas.getitem "ammonia_temp_ratio" X = Ok v ->
                v = PrimFloat.div (Main.ammonia_ppm m) (Main.temperature_C m)) /\
     (forall v, Pandas.getitem "temp_humidity_interaction" X = Ok v ->
                v = PrimFloat.div (PrimFloat.mul (Main.temperature_C m) (Main.humidity_pct m))
                                  100%float)) /\
  Main.prepare_features (Some Reference.saved_config) (Main.DataFrame_of_reading m) =
    Ok [("temperature_C", Main.temperature_C m); ("humidity_%", Main.humidity_pct m);
        ("ammonia_ppm", Main.ammonia_ppm m); ("ph", Main.ph m);
        ("temp_humidity_interaction",
         PrimFloat.div (PrimFloat.mul (Main.temperature_C m) (Main.humidity_pct m)) 100%float);
        ("ammonia_temp_ratio", PrimFloat.div (Main.ammonia_ppm m) (Main.temperature_C m))].
Proof.
  intros Hnz. split; [|split].
  - intros classifier now now' s label Hlabel.
    unfold Dashboard.update_history, Dashboard.update_history_try, Py.truediv.
    rewrite Hnz. cbn [exc_bind]. rewrite Hlabel. reflexivity.
  - intros config X Hrun. unfold Main.prepare_features in Hrun. cbn in Hrun.
    split; intros v Hv;
      pose proof (getitem_select _ _ _ _ _ Hrun Hv) as Hd;
      cbn in Hd; congruence.
  - reflexivity.
Qed.

(** C6, as amended.  For a reading with temperature zero, the quotient in
    [update_history] raises [ZeroDivisionError]; [update_history] catches
    it and shows it, so nothing reaches its caller; the reading is not
    appended and no ratio is put in its place.  The pandas frames of the
    explainer and of [main.py] divide column-wise, which raises nothing:
    there the ratio is the float quotient by zero, infinite or not a
    number. *)
Theorem zero_temperature_caught_or_silent (r : Dashboard.sensor_reading) (m : Main.reading)
    (reading : Pandas.row) (t h a : float) :
  PrimFloat.eqb (Dashboard.temperature r) 0%float = true ->
  PrimFloat.eqb (Main.temperature_C m) 0%float = true ->
  Pandas.getitem "temperature_C" (Pandas.rename Explain.ui_to_internal reading) = Ok t ->
  Pandas.getitem "humidity_%" (Pandas.rename Explain.ui_to_internal reading) = Ok h ->
  Pandas.getitem "ammonia_ppm" (Pandas.rename Explain.ui_to_internal reading) = Ok a ->
  PrimFloat.eqb t 0%float = true ->
  (forall classifier now now' s,
     Dashboard.update_history_try classifier now now' r s = Raise ZeroDivisionError /\
     Dashboard.update_history classifier now now' (Some r) s =
       {| Dashboard.history := Dashboard.history s;
          Dashboard.last_update := Dashboard.last_update s;
          Dashboard.shown_errors := Dashboard.shown_errors s ++ [ZeroDivisionError] |}) /\
  (exists df,
     Explain.engineer reading = Ok df /\
     Pandas.getitem "ammonia_temp_ratio" df = Ok (PrimFloat.div a t) /\
     PrimFloat.is_finite (PrimFloat.div a t) = false /\
     forall config,
       Explain.prepare_features config reading = Explain.check_and_order config df) /\
  (exists X,
     Main.prepare_features (Some Reference.saved_config) (Main.DataFrame_of_reading m) = Ok X /\
     Pandas.getitem "ammonia_temp_ratio" X =
       Ok (PrimFloat.div (Main.ammonia_ppm m) (Main.temperature_C m)) /\
     PrimFloat.is_finite (PrimFloat.div (Main.ammonia_ppm m) (Main.temperature_C m)) = false).
Proof.
  intros Hr Hm Ht Hh Ha Hz. split; [|split].
  - intros classifier now now' s.
    assert (Htry : Dashboard.update_history_try classifier now now' r s =
                   Raise ZeroDivisionError).
    { unfold Dashboard.update_history_try, Py.truediv. rewrite Hr. reflexivity. }
    split; [exact Htry|]. unfold Dashboard.update_history. rewrite Htry. reflexivity.
  - eexists. split; [apply (engineer_ok reading t h a Ht Hh Ha)|].
    split; [apply getitem_setitem_eq|].
    split; [apply div_by_zero_not_finite; exact Hz|].
    intros config. unfold Explain.prepare_features.
    rewrite (engineer_ok reading t h a Ht Hh Ha).
    destruct (Explain.check_and_order config _); reflexivity.
  - eexists. split; [reflexivity|]. split; [reflexivity|].
    apply div_by_zero_not_finite. exact Hm.
Qed.

(** C8.  When a required feature is absent from what a reading offers after
    renaming and engineering, [prepare_features] of the explainer raises:
    [ValueError] for the missing features when the engineering itself went
    through; [explain_prediction] raises in turn; and the panel of the
    dashboard catches the error, shows no explanation, gives its notice and
    still shows its recommendation. *)
Theorem absent_feature_raises_and_panel_degrades (config : Main.feature_config)
    (reading : Pandas.row) (model : Pandas.row -> exc Explain.explanation) :
  feature_absent config reading ->
  raises (Explain.prepare_features config reading) /\
  (forall df, Explain.engineer reading = Ok df ->
     Explain.prepare_features config reading = Raise (ValueError "Missing required features")) /\
  raises (Explain.explain_prediction config model reading) /\
  (forall s latest,
     last (Dashboard.history s) = Some latest ->
     Dashboard.feature_data latest = reading ->
     exists p,
       Dashboard.analysis_panel (Explain.explain_prediction config model) s = Some p /\
       Dashboard.shown_explanation p = None /\
       Dashboard.failure_notice p = true /\
       Dashboard.shown_advice p =
         (if String.eqb (Dashboard.entry_severity latest) "High" then Dashboard.ImmediateAction
          else if String.eqb (Dashboard.entry_severity latest) "Medium"
               then Dashboard.MonitorClosely
               else Dashboard.Optimal)).
Proof.
  intros (f & Hreq & Habsent).
  assert (Hvalue : forall df, Explain.engineer reading = Ok df ->
            Explain.prepare_features config reading =
            Raise (ValueError "Missing required features")).
  { intros df Hdf. unfold Explain.prepare_features, Explain.check_and_order. rewrite Hdf.
    fold (required_features config).
    destruct (Explain.missing_features (required_features config) df) as [|f0 rest] eqn:Hmiss;
      [|reflexivity].
    exfalso. assert (Hin : In f (Explain.missing_features (required_features config) df)).
    { unfold Explain.missing_features. apply filter_In. split; [exact Hreq|].
      apply negb_true_iff. apply not_true_is_false. intros Hhas.
      apply has_column_In in Hhas. apply Habsent.
      eapply engineer_columns; eassumption. }
    rewrite Hmiss in Hin. contradiction. }
  assert (Hprep : raises (Explain.prepare_features config reading)).
  { destruct (Explain.engineer reading) as [df|e] eqn:Hdf.
    - eexists. apply (Hvalue df). reflexivity.
    - eexists. unfold Explain.prepare_features. rewrite Hdf. reflexivity. }
  assert (Hexplain : raises (Explain.explain_prediction config model reading)).
  { destruct Hprep as [e He]. exists e. unfold Explain.explain_prediction.
    rewrite He. reflexivity. }
  repeat split; try assumption.
  intros s latest Hlast Hdata. destruct Hexplain as [e He].
  unfold Dashboard.analysis_panel. rewrite Hlast, Hdata, He.
  eexists. repeat split; reflexivity.
Qed.

(** The panel asks for an explanation under the names [feature_data] uses;
    the renaming table of the explainer spells the temperature key
    otherwise, so with the saved configuration the preparation fails for
    every row of the history. *)
Remark dashboard_explanation_fails (latest : Dashboard.entry)
    (model : Pandas.row -> exc Explain.explanation) :
  Explain.explain_prediction Reference.saved_config model (Dashboard.feature_data latest) =
  Raise (UnboundLocalError "required_features").
Proof. reflexivity. Qed.

End engineering_claims.

(** C7 on a reading of 30 degrees, 60 %, 12 ppm and pH 7. *)
Lemma engineered_features_exact_witness :
  PrimFloat.eqb (Dashboard.temperature (Dashboard.mk_sensor 30 60 12 7)) 0%float = false /\
  Dashboard.update_history None 1%float 2%float (Some (Dashboard.mk_sensor 30 60 12 7))
    (Dashboard.mk_session [] None []) =
  Dashboard.mk_session
    [Dashboard.mk_entry 1 30 60 12 7 "Unknown" 0.40000000000000002 18]
    (Some 2%float) [].
Proof.
  assert (Hnz : PrimFloat.eqb (Dashboard.temperature (Dashboard.mk_sensor 30 60 12 7))
                  0%float = false) by (vm_compute; reflexivity).
  split; [exact Hnz|].
  rewrite (proj1 (engineered_features_exact (Dashboard.mk_sensor 30 60 12 7)
                    (Reference.sample 30 60 12 7) Hnz)
             None 1%float 2%float (Dashboard.mk_session [] None []) "Unknown" eq_refl).
  vm_compute. reflexivity.
Defined.

(** C6 (amended) on a reading of 0 degrees, 60 %, 12 ppm and pH 7. *)
Lemma zero_temperature_caught_or_silent_witness :
  Dashboard.update_history None 1%float 2%float (Some (Dashboard.mk_sensor 0 60 12 7))
    (Dashboard.mk_session [] None []) =
    Dashboard.mk_session [] None [ZeroDivisionError] /\
  PrimFloat.is_finite (PrimFloat.div 12 0) = false.
Proof.
  destruct (zero_temperature_caught_or_silent
              (Dashboard.mk_sensor 0 60 12 7) (Reference.sample 0 60 12 7)
              [("temperature (¬∞C)", 0%float); ("humidity (%)", 60%float);
               ("ammonia (ppm)", 12%float); ("pH", 7%float)]
              0%float 60%float 12%float
              eq_refl eq_refl eq_refl eq_refl eq_refl eq_refl)
    as (Hdash & (df & _ & _ & Hinf & _) & _).
  split; [|exact Hinf].
  exact (proj2 (Hdash None 1%float 2%float (Dashboard.mk_session [] None []))).
Defined.

(** C6 as stated fails on a reading of 0 degrees: [update_history] returns
    to its caller with the error shown and the history unchanged, and the
    two pandas preparations return a frame whose ratio is infinite. *)
Lemma zero_temperature_not_propagated :
  Dashboard.update_history None 1%float 2%float (Some (Dashboard.mk_sensor 0 60 12 7))
    (Dashboard.mk_session [] None []) =
    Dashboard.mk_session [] None [ZeroDivisionError] /\
  Explain.prepare_features Reference.saved_config
    [("temperature (¬∞C)", 0%float); ("humidity (%)", 60%float);
     ("ammonia (ppm)", 12%float); ("pH", 7%float)] =
    Ok [("temperature_C", 0%float); ("humidity_%", 60%float); ("ammonia_ppm", 12%float);
        ("ph", 7%float); ("temp_humidity_interaction", 0%float);
        ("ammonia_temp_ratio", infinity)] /\
  Main.prepare_features (Some Reference.saved_config)
    (Main.DataFrame_of_reading (Reference.sample 0 60 12 7)) =
    Ok [("temperature_C", 0%float); ("humidity_%", 60%float); ("ammonia_ppm", 12%float);
        ("ph", 7%float); ("temp_humidity_interaction", 0%float);
        ("ammonia_temp_ratio", infinity)].
Proof. repeat split; vm_compute; reflexivity. Qed.

(** C8 on a reading without pH. *)
Lemma absent_feature_raises_and_panel_degrades_witness :
  feature_absent Reference.saved_config
    [("temperature (¬∞C)", 32%float); ("humidity (%)", 65%float);
     ("ammonia (ppm)", 22%float)] /\
  Explain.prepare_features Reference.saved_config
    [("temperature (¬∞C)", 32%float); ("humidity (%)", 65%float);
     ("ammonia (ppm)", 22%float)] =
    Raise (ValueError "Missing required features").
Proof.
  assert (Habsent : feature_absent Reference.saved_config
                      [("temperature (¬∞C)", 32%float); ("humidity (%)", 65%float);
                       ("ammonia (ppm)", 22%float)]).
  { exists "ph". split; [vm_compute; auto 10|].
    vm_compute. intros Hin. repeat (destruct Hin as [Hin|Hin]; [discriminate Hin|]).
    exact Hin. }
  split; [exact Habsent|].
  exact (proj1 (proj2 (absent_feature_raises_and_panel_degrades Reference.saved_config _
                         (fun _ => Raise NotFittedError) Habsent)) _ eq_refl).
Defined.

(** * More on the anomaly scorer and the monitoring loop *)

Section scorer_facts.
Context `{Main.Libraries}.

(** A call either leaves the session as it was or leaves it refitted on the
    window; it refits exactly on a window of ten or more when asked to or
    when the session has no forest object. *)
Lemma detect_anomalies_session (data : list Main.reading) (retrain : bool)
    (s : Main.session_state) :
  snd (Main.detect_anomalies data retrain s) =
  if (10 <=? length data)%nat &&
     (retrain || negb (bool_decide (is_Some (Main.anomaly_detector s))))
  then refitted (map feature_values data) s else s.
Proof.
  destruct (Nat.lt_ge_cases (length data) 10) as [Hlt|Hge].
  { rewrite detect_anomalies_short by exact Hlt.
    apply Nat.leb_gt in Hlt. rewrite Hlt. reflexivity. }
  apply Nat.leb_le in Hge as Hleb. rewrite Hleb. cbn [andb].
  destruct (window_has_last data Hge) as [latest Hlast].
  destruct (last_snoc_inv data latest Hlast) as [init ->].
  destruct retrain.
  { rewrite detect_anomalies_refit by auto. reflexivity. }
  destruct (Main.anomaly_detector s) as [d|] eqn:Hd.
  - rewrite (detect_anomalies_reuse init latest s d Hge Hd).
    rewrite bool_decide_eq_true_2 by eauto. cbn [orb negb].
    destruct (Main.estimators_ d); [destruct (Main.anomaly_threshold s)|]; reflexivity.
  - rewrite detect_anomalies_refit by auto.
    rewrite bool_decide_eq_false_2 by (intros [? ?]; discriminate). reflexivity.
Qed.

Lemma detect_anomalies_model (data : list Main.reading) (retrain : bool)
    (s : Main.session_state) :
  snd (Main.detect_anomalies data retrain s) = s \/
  snd (Main.detect_anomalies data retrain s) = refitted (map feature_values data) s.
Proof.
  rewrite detect_anomalies_session. destruct (_ && _); auto.
Qed.

(** The anomaly step of the loop, case by case. *)
Lemma detect_stage_eq (s : Main.session_state) :
  Main.detect_stage s =
  if (10 <=? length (Main.historical_data s))%nat then
    match Main.detect_anomalies (Main.historical_data s)
            (length (Main.historical_data s) mod 10 =? 0)%nat s with
    | (Ok (Some r), s1) => (Ok tt, scored r s1)
    | (Ok None, s1) => (Ok tt, s1)
    | (Raise e, s1) => (Raise e, s1)
    end
  else (Ok tt, s).
Proof.
  unfold Main.detect_stage. unfold Main.bind at 1. unfold Main.get at 1.
  destruct (10 <=? length (Main.historical_data s))%nat; [|reflexivity].
  unfold Main.bind at 1.
  destruct (Main.detect_anomalies _ _ s) as [[[r|]|e] s1]; try reflexivity.
  cbv [Main.bind Main.modify Main.ret scored].
  destruct (Main.is_anomaly r); reflexivity.
Qed.

(** An iteration of the loop, case by case. *)
Lemma monitoring_iteration_eq (config : option Main.feature_config)
    (classifier : option (Pandas.row -> exc string)) (r : Main.reading)
    (s : Main.session_state) :
  Main.monitoring_iteration config classifier r s =
  match Main.prepare_features config (Main.DataFrame_of_reading r) with
  | Raise _ => Main.set_monitoring_active false s
  | Ok pred_data =>
      match Main.predict_severity classifier pred_data with
      | Raise _ => Main.set_monitoring_active false s
      | Ok label =>
          match Main.detect_stage (appended label r s) with
          | (Ok _, s') => s'
          | (Raise _, s') => Main.set_monitoring_active false s'
          end
      end
  end.
Proof.
  unfold Main.monitoring_iteration, Main.monitoring_body.
  unfold Main.bind at 1. unfold Main.lift at 1.
  destruct (Main.prepare_features config (Main.DataFrame_of_reading r)) as [pred_data|e];
    [|reflexivity].
  unfold Main.bind at 1. unfold Main.lift at 1.
  destruct (Main.predict_severity classifier pred_data) as [label|e]; reflexivity.
Qed.

(** The forest and the threshold after the anomaly step of the loop. *)
Lemma detect_stage_model (s : Main.session_state) :
  (Main.anomaly_detector (snd (Main.detect_stage s)) = Main.anomaly_detector s /\
   Main.anomaly_threshold (snd (Main.detect_stage s)) = Main.anomaly_threshold s) \/
  (exists X,
     Main.anomaly_detector (snd (Main.detect_stage s)) = Some (fitted_on X) /\
     Main.anomaly_threshold (snd (Main.detect_stage s)) = Some (threshold_of X)).
Proof.
  rewrite detect_stage_eq.
  destruct (10 <=? length (Main.historical_data s))%nat; [|left; split; reflexivity].
  pose proof (detect_anomalies_model (Main.historical_data s)
                (length (Main.historical_data s) mod 10 =? 0)%nat s) as Hmodel.
  destruct (Main.detect_anomalies _ _ s) as [[[r|]|e] s1]; cbn [snd] in Hmodel |- *.
  - unfold scored. destruct (Main.is_anomaly r);
      (destruct Hmodel as [-> | ->];
       [left; split; reflexivity|right; eexists; split; reflexivity]).
  - destruct Hmodel as [-> | ->];
      [left; split; reflexivity|right; eexists; split; reflexivity].
  - destruct Hmodel as [-> | ->];
      [left; split; reflexivity|right; eexists; split; reflexivity].
Qed.

(** The forest and the threshold after an iteration of the loop. *)
Lemma monitoring_iteration_model (config : option Main.feature_config)
    (classifier : option (Pandas.row -> exc string)) (r : Main.reading)
    (s : Main.session_state) :
  (Main.anomaly_detector (Main.monitoring_iteration config classifier r s) =
     Main.anomaly_detector s /\
   Main.anomaly_threshold (Main.monitoring_iteration config classifier r s) =
     Main.anomaly_threshold s) \/
  (exists X,
     Main.anomaly_detector (Main.monitoring_iteration config classifier r s) =
       Some (fitted_on X) /\
     Main.anomaly_threshold (Main.monitoring_iteration config classifier r s) =
       Some (threshold_of X)).
Proof.
  rewrite monitoring_iteration_eq.
  destruct (Main.prepare_features config (Main.DataFrame_of_reading r)) as [pred_data|e];
    [|left; split; reflexivity].
  destruct (Main.predict_severity classifier pred_data) as [label|e];
    [|left; split; reflexivity].
  pose proof (detect_stage_model (appended label r s)) as Hstage.
  destruct (Main.detect_stage (appended label r s)) as [[[]|e] s3];
    cbn [snd] in Hstage; exact Hstage.
Qed.

(** Whatever holds of the initial pair of forest and threshold, of every
    refitted pair, and is kept by the settings button, holds in every
    session the monitor can reach. *)
Lemma reachable_model_invariant
    (P : option Main.detector -> option float -> Prop) :
  P None None ->
  (forall X, P (Some (fitted_on X)) (Some (threshold_of X))) ->
  (forall c n d t, P d t ->
     P (Some {| Main.contamination := c; Main.n_estimators := n;
                Main.estimators_ := None |}) t) ->
  forall s, reachable s -> P (Main.anomaly_detector s) (Main.anomaly_threshold s).
Proof.
  intros Hinit Hrefit Hsettings s Hreach.
  induction Hreach as [|s s' _ IH Hstep]; [exact Hinit|].
  destruct Hstep as [data retrain s|config classifier r s|c n s].
  - destruct (detect_anomalies_model data retrain s) as [-> | ->];
      [exact IH|apply Hrefit].
  - destruct (monitoring_iteration_model config classifier r s)
      as [[-> ->]|(X & -> & ->)]; [exact IH|apply Hrefit].
  - apply (Hsettings c n _ _ IH).
Qed.

(** X1.  The hyper-parameters chosen on the settings tab never reach a
    fitted forest: in every reachable session a forest that has been fitted
    was built with contamination 0.1 and 100 estimators, and so was the
    forest behind every result [detect_anomalies] returns. *)
Theorem settings_never_reach_fitted_forest (s : Main.session_state)
    (data : list Main.reading) (retrain : bool) (r : Main.anomaly_result)
    (s' : Main.session_state) :
  reachable s ->
  Main.detect_anomalies data retrain s = (Ok (Some r), s') ->
  (forall d m,
     Main.anomaly_detector s = Some d -> Main.estimators_ d = Some m ->
     Main.contamination d = 0.1%float /\ Main.n_estimators d = 100%Z) /\
  exists d m,
    Main.anomaly_detector s' = Some d /\ Main.estimators_ d = Some m /\
    Main.contamination d = 0.1%float /\ Main.n_estimators d = 100%Z.
Proof.
  intros Hreach Hrun.
  set (P := fun (od : option Main.detector) (_ : option float) =>
              forall d m, od = Some d -> Main.estimators_ d = Some m ->
                          Main.contamination d = 0.1%float /\ Main.n_estimators d = 100%Z).
  assert (Hinv : forall s0, reachable s0 ->
                   P (Main.anomaly_detector s0) (Main.anomaly_threshold s0)).
  { apply reachable_model_invariant; unfold P.
    - intros d m Hd. discriminate Hd.
    - intros X d m Hd _. injection Hd as <-. split; reflexivity.
    - intros c n d0 t _ d m Hd Hm. injection Hd as <-. discriminate Hm. }
  split; [exact (Hinv s Hreach)|].
  pose proof (detect_anomalies_some_long _ _ _ _ _ Hrun) as Hlen.
  destruct (window_has_last data Hlen) as [latest Hlast].
  destruct (last_snoc_inv data latest Hlast) as [init ->].
  destruct (detect_anomalies_result init latest retrain s s' r Hrun)
    as (d & m & threshold & Hd & Hm & _ & _).
  exists d, m. split; [exact Hd|]. split; [exact Hm|].
  assert (Hreach' : reachable s').
  { replace s' with (snd (Main.detect_anomalies (init ++ [latest]) retrain s))
      by (rewrite Hrun; reflexivity).
    eapply reachable_step; [exact Hreach|apply step_detect]. }
  exact (Hinv s' Hreach' d m Hd Hm).
Qed.

Lemma refitted_twice (X : list (list float)) (s : Main.session_state) :
  refitted X (refitted X s) = refitted X s.
Proof. reflexivity. Qed.

(** X2.  Scoring a window again changes nothing: after a call that returned
    a result, a second call on the same window returns the same result and
    leaves the same session, whether it retrains or not. *)
Theorem rescoring_same_window_is_stable (data : list Main.reading) (retrain again : bool)
    (s s' : Main.session_state) (r : Main.anomaly_result) :
  retrain = true \/ Main.anomaly_detector s = None ->
  Main.detect_anomalies data retrain s = (Ok (Some r), s') ->
  Main.detect_anomalies data again s' = (Ok (Some r), s').
Proof.
  intros Hre Hrun.
  pose proof (detect_anomalies_some_long _ _ _ _ _ Hrun) as Hlen.
  destruct (window_has_last data Hlen) as [latest Hlast].
  destruct (last_snoc_inv data latest Hlast) as [init ->].
  rewrite detect_anomalies_refit in Hrun by assumption.
  injection Hrun as <- <-.
  destruct again.
  - rewrite detect_anomalies_refit by auto. rewrite refitted_twice. reflexivity.
  - rewrite (detect_anomalies_reuse init latest
               (refitted (map feature_values (init ++ [latest])) s)
               (fitted_on (map feature_values (init ++ [latest]))) Hlen eq_refl).
    reflexivity.
Qed.

(** X3.  After a click on "Apply Settings" the session holds a forest that
    was never fitted.  An iteration of the loop whose reading is classified
    and which brings the window to ten readings or more, at a length that is
    no multiple of ten, then appends the reading, fails in the scorer with
    [NotFittedError] and stops the monitoring, the unfitted forest staying
    in place; at a multiple of ten the scorer refits instead. *)
Theorem settings_stop_monitoring_until_refit (config : option Main.feature_config)
    (classifier : option (Pandas.row -> exc string)) (c : float) (n : Z)
    (r : Main.reading) (s : Main.session_state) (pred_data : Pandas.row) (label : string) :
  Main.prepare_features config (Main.DataFrame_of_reading r) = Ok pred_data ->
  Main.predict_severity classifier pred_data = Ok label ->
  (10 <= length (Main.historical_data s) + 1)%nat ->
  ((length (Main.historical_data s) + 1) mod 10 <> 0)%nat ->
  (forall data, (10 <= length data)%nat ->
     Main.detect_anomalies data false (Main.apply_settings c n s) =
       (Raise NotFittedError, Main.apply_settings c n s)) /\
  Main.monitoring_iteration config classifier r (Main.apply_settings c n s) =
    Main.set_monitoring_active false (appended label r (Main.apply_settings c n s)) /\
  (forall data, (10 <= length data)%nat ->
     Main.anomaly_detector (snd (Main.detect_anomalies data true (Main.apply_settings c n s))) =
       Some (fitted_on (map feature_values data))).
Proof.
  intros Hprep Hpred Hlen Hmod.
  assert (Hunfit : forall s0 data, (10 <= length data)%nat ->
            Main.detect_anomalies data false (Main.apply_settings c n s0) =
            (Raise NotFittedError, Main.apply_settings c n s0)).
  { intros s0 data Hdata.
    destruct (window_has_last data Hdata) as [latest Hlast].
    destruct (last_snoc_inv data latest Hlast) as [init ->].
    rewrite (detect_anomalies_reuse init latest (Main.apply_settings c n s0)
               {| Main.contamination := c; Main.n_estimators := n;
                  Main.estimators_ := None |} Hdata eq_refl).
    reflexivity. }
  split; [apply Hunfit|]. split.
  - rewrite monitoring_iteration_eq, Hprep, Hpred, detect_stage_eq.
    assert (Hhist : Main.historical_data (appended label r (Main.apply_settings c n s)) =
                    Main.historical_data s ++ [labelled label r]) by reflexivity.
    rewrite Hhist, length_app. cbn [length].
    apply Nat.leb_le in Hlen as Hleb. rewrite Hleb.
    apply Nat.eqb_neq in Hmod. rewrite Hmod.
    change (appended label r (Main.apply_settings c n s))
      with (Main.apply_settings c n (appended label r s)).
    rewrite Hunfit by (rewrite length_app; cbn [length]; exact Hlen).
    reflexivity.
  - intros data Hdata.
    destruct (window_has_last data Hdata) as [latest Hlast].
    destruct (last_snoc_inv data latest Hlast) as [init ->].
    rewrite detect_anomalies_refit by auto. reflexivity.
Qed.

End scorer_facts.

(** * What the monitoring loop keeps *)

Section loop_facts.
Context `{Main.Libraries}.
Variable config : option Main.feature_config.
Variable classifier : option (Pandas.row -> exc string).

(** A call of the scorer touches the forest and the threshold only. *)
Lemma detect_anomalies_frame (data : list Main.reading) (retrain : bool)
    (s : Main.session_state) :
  Main.historical_data (snd (Main.detect_anomalies data retrain s)) = Main.historical_data s /\
  Main.total_readings (snd (Main.detect_anomalies data retrain s)) = Main.total_readings s /\
  Main.anomalies_detected (snd (Main.detect_anomalies data retrain s)) =
    Main.anomalies_detected s /\
  Main.current_anomaly (snd (Main.detect_anomalies data retrain s)) = Main.current_anomaly s.
Proof.
  destruct (detect_anomalies_model data retrain s) as [-> | ->]; repeat split; reflexivity.
Qed.

(** After a call on ten readings or more the session holds a forest object. *)
Lemma detect_anomalies_detector_present (data : list Main.reading) (retrain : bool)
    (s : Main.session_state) :
  (10 <= length data)%nat ->
  Main.anomaly_detector (snd (Main.detect_anomalies data retrain s)) <> None.
Proof.
  intros Hlen. rewrite detect_anomalies_session.
  apply Nat.leb_le in Hlen. rewrite Hlen. cbn [andb].
  destruct retrain; cbn [orb]; [discriminate|].
  destruct (Main.anomaly_detector s) as [d|] eqn:Hd.
  - rewrite bool_decide_eq_true_2 by eauto. cbn [negb]. rewrite Hd. discriminate.
  - rewrite bool_decide_eq_false_2 by (intros [? ?]; discriminate). discriminate.
Qed.

Lemma annotate_latest_snoc (v : float) (l : list Main.reading) (x : Main.reading) :
  Main.annotate_latest v (l ++ [x]) =
  l ++ [{| Main.temperature_C := Main.temperature_C x; Main.humidity_pct := Main.humidity_pct x;
           Main.ammonia_ppm := Main.ammonia_ppm x; Main.timestamp := Main.timestamp x;
           Main.ph := Main.ph x; Main.severity := Main.severity x;
           Main.reading_anomaly_score := Some v |}].
Proof.
  unfold Main.annotate_latest. destruct (l ++ [x]) as [|y l'] eqn:Heq.
  { destruct l; discriminate Heq. }
  rewrite <- Heq. rewrite last_slice_snoc. rewrite length_app. cbn [length map].
  replace (length l + 1 - 1)%nat with (length l) by lia.
  rewrite take_app_length. reflexivity.
Qed.

(** What an iteration does to the window, the counters and the forest
    object: nothing when the reading was not classified; otherwise one
    reading more, with a score on it only when the window of ten or more was
    scored. *)
Lemma monitoring_iteration_summary (r : Main.reading) (s : Main.session_state) :
  let s' := Main.monitoring_iteration config classifier r s in
  let n := length (Main.historical_data s) in
  (Main.historical_data s' = Main.historical_data s /\
   Main.total_readings s' = Main.total_readings s /\
   Main.anomalies_detected s' = Main.anomalies_detected s /\
   Main.anomaly_detector s' = Main.anomaly_detector s /\
   Main.current_anomaly s' = Main.current_anomaly s) \/
  (exists x,
     feature_values x = feature_values r /\
     Main.historical_data s' = Main.historical_data s ++ [x] /\
     Main.total_readings s' = S (Main.total_readings s) /\
     ((Main.reading_anomaly_score x = Main.reading_anomaly_score r /\
       Main.anomalies_detected s' = Main.anomalies_detected s /\
       Main.current_anomaly s' = Main.current_anomaly s /\
       ((n + 1 < 10)%nat -> Main.anomaly_detector s' = Main.anomaly_detector s) /\
       ((10 <= n + 1)%nat -> Main.anomaly_detector s' <> None)) \/
      ((10 <= n + 1)%nat /\
       (Main.anomalies_detected s' <= S (Main.anomalies_detected s))%nat /\
       Main.anomalies_detected s <= Main.anomalies_detected s' /\
       Main.current_anomaly s' <> None /\
       Main.anomaly_detector s' <> None))).
Proof.
  intros s' n. subst s'. rewrite monitoring_iteration_eq.
  destruct (Main.prepare_features config (Main.DataFrame_of_reading r)) as [pred_data|e];
    [|left; repeat split; reflexivity].
  destruct (Main.predict_severity classifier pred_data) as [label|e];
    [|left; repeat split; reflexivity].
  right. rewrite detect_stage_eq.
  assert (Hhist : Main.historical_data (appended label r s) =
                  Main.historical_data s ++ [labelled label r]) by reflexivity.
  rewrite Hhist, length_app. cbn [length]. fold n.
  destruct (10 <=? n + 1)%nat eqn:Hleb.
  - apply Nat.leb_le in Hleb.
    pose proof (detect_anomalies_frame (Main.historical_data s ++ [labelled label r])
                  ((n + 1) mod 10 =? 0)%nat (appended label r s))
      as (Hh & Ht & Ha & Hc).
    pose proof (detect_anomalies_detector_present
                  (Main.historical_data s ++ [labelled label r])
                  ((n + 1) mod 10 =? 0)%nat (appended label r s)
                  ltac:(rewrite length_app; cbn [length]; exact Hleb)) as Hd.
    destruct (Main.detect_anomalies _ _ (appended label r s)) as [[[res|]|e] s1];
      cbn [snd] in Hh, Ht, Ha, Hc, Hd.
    + eexists. split; [|split; [|split; [|right]]].
      2: { unfold scored. destruct (Main.is_anomaly res);
             cbn [Main.historical_data Main.set_anomalies_detected Main.set_current_anomaly
                  Main.set_historical_data];
             rewrite Hh, Hhist, annotate_latest_snoc; reflexivity. }
      * reflexivity.
      * unfold scored. destruct (Main.is_anomaly res); cbn; rewrite Ht; reflexivity.
      * split; [exact Hleb|].
        unfold scored. destruct (Main.is_anomaly res); cbn; rewrite Ha; cbn;
          repeat split; try lia; try discriminate; exact Hd.
    + exists (labelled label r). split; [reflexivity|]. split; [rewrite Hh; exact Hhist|].
      split; [rewrite Ht; reflexivity|]. left.
      split; [reflexivity|]. split; [rewrite Ha; reflexivity|].
      split; [rewrite Hc; reflexivity|]. split; [lia|intros _; exact Hd].
    + exists (labelled label r). split; [reflexivity|].
      split; [cbn; rewrite Hh; exact Hhist|].
      split; [cbn; rewrite Ht; reflexivity|]. left.
      split; [reflexivity|]. split; [cbn; rewrite Ha; reflexivity|].
      split; [cbn; rewrite Hc; reflexivity|]. split; [lia|intros _; exact Hd].
  - apply Nat.leb_gt in Hleb.
    exists (labelled label r). split; [reflexivity|]. split; [exact Hhist|].
    split; [reflexivity|]. left. repeat split; try reflexivity. lia.
Qed.

End loop_facts.

Section loop_invariants.
Context `{Main.Libraries}.
Variable config : option Main.feature_config.
Variable classifier : option (Pandas.row -> exc string).

Lemma run_loop_reachable (readings : list Main.reading) (s : Main.session_state) :
  Forall fresh readings ->
  loop_reachable config classifier s ->
  loop_reachable config classifier (run_loop config classifier readings s).
Proof.
  intros Hfresh. revert s.
  induction Hfresh as [|r readings Hr _ IH]; intros s Hs; [exact Hs|].
  apply IH. eapply loop_next; [exact Hs|]. apply loop_iteration. exact Hr.
Qed.

(** X4.  In every session of a monitoring run, [total_readings] is the
    length of the window; no anomaly is counted and no result is kept before
    the window holds ten readings, and at most one anomaly is counted for
    each reading from the tenth on. *)
Theorem loop_counters_follow_window (s : Main.session_state) :
  loop_reachable config classifier s ->
  Main.total_readings s = length (Main.historical_data s) /\
  (Main.anomalies_detected s <= length (Main.historical_data s) - 9)%nat /\
  (Main.current_anomaly s <> None -> (10 <= length (Main.historical_data s))%nat).
Proof.
  induction 1 as [|s s' _ IH Hstep]; [repeat split; [cbn; lia|intros Hc; contradiction Hc; reflexivity]|].
  destruct IH as (Ht & Ha & Hc).
  destruct Hstep as [r s _|c n s]; [|exact (conj Ht (conj Ha Hc))].
  destruct (monitoring_iteration_summary config classifier r s)
    as [(Eh & Et & Ea & _ & Ec)
       |(x & _ & Eh & Et & [(_ & Ea & Ec & _)|(Hten & Ea & _ & _ & _)])];
    rewrite Eh, Et; try rewrite length_app; cbn [length].
  - rewrite Ea, Ec. auto.
  - rewrite Ea, Ec. repeat split; [lia|lia|]. intros Hres. specialize (Hc Hres). lia.
  - repeat split; [lia|lia|]. intros _. exact Hten.
Qed.

(** X5.  In every session of a monitoring run whose window holds ten
    readings or more there is a forest object: the scorer creates it at the
    tenth reading, where it retrains, so that later it never finds the
    session without one. *)
Theorem forest_object_present_from_tenth_reading (s : Main.session_state) :
  loop_reachable config classifier s ->
  (10 <= length (Main.historical_data s))%nat ->
  exists d, Main.anomaly_detector s = Some d.
Proof.
  intros Hreach Hlen.
  assert (Hinv : Main.anomaly_detector s <> None).
  { revert Hlen. induction Hreach as [|s s' _ IH Hstep]; [cbn; lia|].
    destruct Hstep as [r s _|c n s]; [|intros _; discriminate].
    destruct (monitoring_iteration_summary config classifier r s)
      as [(Eh & _ & _ & Ed & _)
         |(x & _ & Eh & _ & [(_ & _ & _ & _ & Ed)|(_ & _ & _ & _ & Ed)])];
      rewrite Eh; try rewrite length_app; cbn [length]; intros Hlen.
    - rewrite Ed. apply IH. exact Hlen.
    - apply Ed. exact Hlen.
    - exact Ed. }
  destruct (Main.anomaly_detector s) as [d|]; [eauto|contradiction].
Qed.

(** X6.  The loop only ever appends to the window: an iteration leaves the
    base features of the stored readings as they were and adds at most the
    features of its own reading at the end.  In every session of a
    monitoring run the first nine readings carry no anomaly score. *)
Theorem window_is_append_only (s : Main.session_state) (r : Main.reading) :
  loop_reachable config classifier s ->
  (map feature_values
       (Main.historical_data (Main.monitoring_iteration config classifier r s)) =
     map feature_values (Main.historical_data s) \/
   map feature_values
       (Main.historical_data (Main.monitoring_iteration config classifier r s)) =
     map feature_values (Main.historical_data s) ++ [feature_values r]) /\
  (forall i x,
     Main.historical_data s !! i = Some x -> (i < 9)%nat ->
     Main.reading_anomaly_score x = None).
Proof.
  intros Hreach. split.
  - destruct (monitoring_iteration_summary config classifier r s)
      as [(Eh & _)|(x & Hx & Eh & _)]; rewrite Eh; [left; reflexivity|right].
    rewrite map_app. cbn [map]. rewrite Hx. reflexivity.
  - clear r. induction Hreach as [|s s' _ IH Hstep]; [intros i x Hi; discriminate Hi|].
    destruct Hstep as [r s Hfresh|c n s]; [|exact IH].
    destruct (monitoring_iteration_summary config classifier r s)
      as [(Eh & _)|(y & _ & Eh & _ & Hcase)]; rewrite Eh; [exact IH|].
    intros i x Hi Hlt.
    destruct (Nat.lt_ge_cases i (length (Main.historical_data s))) as [Hin|Hout].
    + rewrite lookup_app_l in Hi by exact Hin. exact (IH i x Hi Hlt).
    + rewrite lookup_app_r in Hi by exact Hout.
      destruct (i - length (Main.historical_data s))%nat as [|k] eqn:Hk; [|discriminate Hi].
      injection Hi as <-.
      destruct Hcase as [(Hscore & _)|(Hten & _)]; [rewrite Hscore; exact Hfresh|lia].
Qed.

End loop_invariants.

Lemma ten_readings_fresh : Forall fresh Reference.ten_readings.
Proof. repeat constructor. Qed.

Lemma monitored_ten_reachable :
  loop_reachable (Some Reference.saved_config) (Some (fun _ => Ok "Low")) monitored_ten.
Proof.
  apply run_loop_reachable; [exact ten_readings_fresh|apply loop_initial].
Qed.

(** X1 on the ten readings. *)
Lemma settings_never_reach_fitted_forest_witness :
  exists d m,
    Main.anomaly_detector Reference.ten_session = Some d /\ Main.estimators_ d = Some m /\
    Main.contamination d = 0.1%float /\ Main.n_estimators d = 100%Z.
Proof.
  exact (proj2 (settings_never_reach_fitted_forest Main.initial_state Reference.ten_readings
                  true Reference.ten_result Reference.ten_session
                  reachable_initial ten_readings_run)).
Defined.

(** X2 on the ten readings. *)
Lemma rescoring_same_window_is_stable_witness :
  Main.detect_anomalies Reference.ten_readings false Reference.ten_session =
  (Ok (Some Reference.ten_result), Reference.ten_session).
Proof.
  exact (rescoring_same_window_is_stable Reference.ten_readings true false
           Main.initial_state Reference.ten_session Reference.ten_result
           (or_introl eq_refl) ten_readings_run).
Defined.

(** X3 on an eleventh reading after the settings were applied. *)
Lemma settings_stop_monitoring_until_refit_witness :
  Main.monitoring_active
    (Main.monitoring_iteration (Some Reference.saved_config) (Some (fun _ => Ok "Low"))
       (Reference.sample 30 60 12 7) (Main.apply_settings 0.2%float 50 monitored_ten)) = false /\
  length (Main.historical_data
            (Main.monitoring_iteration (Some Reference.saved_config) (Some (fun _ => Ok "Low"))
               (Reference.sample 30 60 12 7)
               (Main.apply_settings 0.2%float 50 monitored_ten))) = 11%nat.
Proof.
  assert (Hlen : (10 <= length (Main.historical_data monitored_ten) + 1)%nat)
    by (vm_compute; lia).
  assert (Hmod : ((length (Main.historical_data monitored_ten) + 1) mod 10 <> 0)%nat)
    by (vm_compute; discriminate).
  destruct (settings_stop_monitoring_until_refit (Some Reference.saved_config)
              (Some (fun _ => Ok "Low")) 0.2%float 50 (Reference.sample 30 60 12 7)
              monitored_ten _ "Low" eq_refl eq_refl Hlen Hmod) as (_ & Hrun & _).
  rewrite Hrun. split; vm_compute; reflexivity.
Defined.

(** X4 after ten iterations. *)
Lemma loop_counters_follow_window_witness :
  Main.total_readings monitored_ten = length (Main.historical_data monitored_ten) /\
  (Main.anomalies_detected monitored_ten <= length (Main.historical_data monitored_ten) - 9)%nat /\
  (Main.current_anomaly monitored_ten <> None ->
   (10 <= length (Main.historical_data monitored_ten))%nat).
Proof.
  exact (loop_counters_follow_window (Some Reference.saved_config) (Some (fun _ => Ok "Low"))
           monitored_ten monitored_ten_reachable).
Defined.

(** X5 after ten iterations. *)
Lemma forest_object_present_from_tenth_reading_witness :
  (10 <= length (Main.historical_data monitored_ten))%nat /\
  exists d, Main.anomaly_detector monitored_ten = Some d.
Proof.
  assert (Hlen : (10 <= length (Main.historical_data monitored_ten))%nat)
    by (vm_compute; lia).
  split; [exact Hlen|].
  exact (forest_object_present_from_tenth_reading (Some Reference.saved_config)
           (Some (fun _ => Ok "Low")) monitored_ten monitored_ten_reachable Hlen).
Defined.

(** X6 after ten iterations. *)
Lemma window_is_append_only_witness :
  exists x,
    Main.historical_data monitored_ten !! 0%nat = Some x /\
    Main.reading_anomaly_score x = None.
Proof.
  assert (Hx : Main.historical_data monitored_ten !! 0%nat =
               Some (labelled "Low" (Reference.sample 27 60 12 7)))
    by (vm_compute; reflexivity).
  eexists. split; [exact Hx|].
  exact (proj2 (window_is_append_only (Some Reference.saved_config)
                  (Some (fun _ => Ok "Low")) monitored_ten (Reference.sample 30 60 12 7)
                  monitored_ten_reachable) 0%nat _ Hx ltac:(lia)).
Defined.

(** * More on feature preparation *)

Section preparation_facts.

Lemma getitem_present (n : string) (df : Pandas.row) :
  In n (Pandas.columns df) -> exists v, Pandas.getitem n df = Ok v.
Proof.
  unfold Pandas.columns. induction df as [|[c w] rest IH]; cbn; [contradiction|].
  destruct (String.eqb_spec n c) as [->|Hc]; [eauto|].
  intros [Heq|Hin]; [congruence|exact (IH Hin)].
Qed.

Lemma getitem_absent (n : string) (df : Pandas.row) (e : exn) :
  Pandas.getitem n df = Raise e -> e = KeyError n /\ ~ In n (Pandas.columns df).
Proof.
  unfold Pandas.columns. induction df as [|[c w] rest IH]; cbn.
  - intros [= <-]. auto.
  - destruct (String.eqb_spec n c) as [->|Hc]; [discriminate|].
    intros Hrun. destruct (IH Hrun) as [-> Hnot]. split; [reflexivity|].
    intros [Heq|Hin]; [congruence|contradiction].
Qed.

Lemma getitem_columns (n : string) (df : Pandas.row) (v : float) :
  Pandas.getitem n df = Ok v -> In n (Pandas.columns df).
Proof.
  unfold Pandas.columns. induction df as [|[c w] rest IH]; cbn; [discriminate|].
  destruct (String.eqb_spec n c) as [->|Hc]; [auto|]. intros Hrun. right. exact (IH Hrun).
Qed.

(** Selecting columns returns them in the order asked for. *)
Lemma select_columns (names : list string) (df X : Pandas.row) :
  Pandas.select names df = Ok X -> Pandas.columns X = names.
Proof.
  revert X. induction names as [|n names IH]; intros X Hsel; cbn in Hsel.
  - injection Hsel as <-. reflexivity.
  - destruct (Pandas.getitem n df) as [v|]; cbn in Hsel; [|discriminate].
    destruct (Pandas.select names df) as [X'|]; cbn in Hsel; [|discriminate].
    injection Hsel as <-. unfold Pandas.columns. cbn [map fst]. f_equal.
    exact (IH X' eq_refl).
Qed.

(** Selecting succeeds exactly when every name asked for is a column. *)
Lemma select_returns (names : list string) (df : Pandas.row) :
  (exists X, Pandas.select names df = Ok X) <->
  (forall n, In n names -> In n (Pandas.columns df)).
Proof.
  induction names as [|n names IH]; cbn.
  - split; [intros _ n []|eauto].
  - split.
    + intros [X Hsel].
      destruct (Pandas.getitem n df) as [v|] eqn:Hn; cbn in Hsel; [|discriminate].
      destruct (Pandas.select names df) as [X'|] eqn:Hrest; cbn in Hsel; [|discriminate].
      intros n' [<-|Hin]; [exact (getitem_columns _ _ _ Hn)|].
      apply (proj1 IH); eauto.
    + intros Hall. destruct (getitem_present n df (Hall n (or_introl eq_refl))) as [v ->].
      destruct (proj2 IH (fun n' Hin => Hall n' (or_intror Hin))) as [X' ->].
      cbn. eauto.
Qed.

(** What selecting raises is a [KeyError] for a name that is no column. *)
Lemma select_raises (names : list string) (df : Pandas.row) (e : exn) :
  Pandas.select names df = Raise e ->
  exists n, e = KeyError n /\ In n names /\ ~ In n (Pandas.columns df).
Proof.
  induction names as [|n names IH]; cbn; [discriminate|].
  destruct (Pandas.getitem n df) as [v|e0] eqn:Hn; cbn.
  - destruct (Pandas.select names df) as [X'|e1]; cbn; [discriminate|].
    intros [= <-]. destruct (IH eq_refl) as (n' & -> & Hin & Hnot). eauto 6.
  - intros [= <-]. destruct (getitem_absent _ _ _ Hn) as [-> Hnot]. eauto 6.
Qed.

(** The columns of the frame with the two engineered columns set. *)
Lemma engineered_columns (df : Pandas.row) (x y : float) (c : string) :
  In c (Pandas.columns
          (Pandas.setitem "ammonia_temp_ratio" y
             (Pandas.setitem "temp_humidity_interaction" x df))) <->
  In c (Pandas.columns df ++ ["temp_humidity_interaction"; "ammonia_temp_ratio"]).
Proof.
  rewrite !columns_setitem, in_app_iff. cbn [In]. intuition congruence.
Qed.

(** The engineering steps of [main.py]'s [prepare_features], before the
    selection. *)
Lemma main_prepare_features_eq (cfg : Main.feature_config) (data : Pandas.row) :
  Main.prepare_features (Some cfg) data =
  match Pandas.getitem "temperature_C" data with
  | Raise e => Raise e
  | Ok t =>
      match Pandas.getitem "humidity_%" data with
      | Raise e => Raise e
      | Ok h =>
          match Pandas.getitem "ammonia_ppm" data with
          | Raise e => Raise e
          | Ok a =>
              Pandas.select (Main.feature_names cfg ++ Main.engineered_features cfg)
                (Pandas.setitem "ammonia_temp_ratio" (PrimFloat.div a t)
                   (Pandas.setitem "temp_humidity_interaction"
                      (PrimFloat.div (PrimFloat.mul t h) 100%float) data))
          end
      end
  end.
Proof.
  unfold Main.prepare_features.
  destruct (Pandas.getitem "temperature_C" data) as [t|] eqn:Ht; [|reflexivity].
  destruct (Pandas.getitem "humidity_%" data) as [h|] eqn:Hh; [|reflexivity].
  cbn [exc_bind]. rewrite !getitem_setitem_ne by discriminate.
  destruct (Pandas.getitem "ammonia_ppm" data) as [a|] eqn:Ha; [|reflexivity].
  cbn [exc_bind]. rewrite Ht. reflexivity.
Qed.

(** X7.  When [prepare_features] of [main.py] returns a frame, its columns
    are the configured feature names followed by the configured engineered
    names, in that order, whatever the order and number of the columns it
    was given; every value in it is the one the input frame holds under
    that name, the two engineered names apart. *)
Theorem main_prepare_features_orders_columns (config : option Main.feature_config)
    (data X : Pandas.row) :
  Main.prepare_features config data = Ok X ->
  exists cfg,
    config = Some cfg /\
    Pandas.columns X = Main.feature_names cfg ++ Main.engineered_features cfg /\
    forall n v,
      Pandas.getitem n X = Ok v ->
      n <> "temp_humidity_interaction" -> n <> "ammonia_temp_ratio" ->
      Pandas.getitem n data = Ok v.
Proof.
  intros Hrun. destruct config as [cfg|]; [|discriminate Hrun].
  exists cfg. split; [reflexivity|].
  rewrite main_prepare_features_eq in Hrun.
  destruct (Pandas.getitem "temperature_C" data) as [t|]; [|discriminate].
  destruct (Pandas.getitem "humidity_%" data) as [h|]; [|discriminate].
  destruct (Pandas.getitem "ammonia_ppm" data) as [a|]; [|discriminate].
  split; [exact (select_columns _ _ _ Hrun)|].
  intros n v Hv Hn1 Hn2.
  pose proof (getitem_select _ _ _ _ _ Hrun Hv) as Hd.
  rewrite !getitem_setitem_ne in Hd by congruence. exact Hd.
Qed.

(** X8.  [prepare_features] of [main.py] returns a frame exactly when the
    configuration is loaded, the input has the three columns the engineered
    features are computed from, and every configured name is a column of the
    input or one of the two engineered names.  Without a configuration it
    raises [ValueError]; with one, all it can raise is a [KeyError] that
    names a column missing from the input. *)
Theorem main_prepare_features_failures (cfg : Main.feature_config) (data : Pandas.row) :
  Main.prepare_features None data = Raise (ValueError "Feature configuration not loaded") /\
  ((exists X, Main.prepare_features (Some cfg) data = Ok X) <->
   (In "temperature_C" (Pandas.columns data) /\
    In "humidity_%" (Pandas.columns data) /\
    In "ammonia_ppm" (Pandas.columns data) /\
    forall n, In n (Main.feature_names cfg ++ Main.engineered_features cfg) ->
              In n (Pandas.columns data ++
                    ["temp_humidity_interaction"; "ammonia_temp_ratio"]))) /\
  (forall e, Main.prepare_features (Some cfg) data = Raise e ->
     exists n, e = KeyError n /\ ~ In n (Pandas.columns data)).
Proof.
  split; [reflexivity|]. rewrite main_prepare_features_eq. split.
  - split.
    + intros [X Hrun].
      destruct (Pandas.getitem "temperature_C" data) as [t|] eqn:Ht; [|discriminate].
      destruct (Pandas.getitem "humidity_%" data) as [h|] eqn:Hh; [|discriminate].
      destruct (Pandas.getitem "ammonia_ppm" data) as [a|] eqn:Ha; [|discriminate].
      repeat split; try (eapply getitem_columns; eassumption).
      intros n Hn.
      apply (proj1 (engineered_columns data (PrimFloat.div (PrimFloat.mul t h) 100%float)
                      (PrimFloat.div a t) n)).
      exact (proj1 (select_returns _ _) (ex_intro _ X Hrun) n Hn).
    + intros (Ht & Hh & Ha & Hall).
      destruct (getitem_present _ _ Ht) as [t ->].
      destruct (getitem_present _ _ Hh) as [h ->].
      destruct (getitem_present _ _ Ha) as [a ->].
      apply (proj2 (select_returns _ _)). intros n Hn.
      apply (proj2 (engineered_columns data (PrimFloat.div (PrimFloat.mul t h) 100%float)
                      (PrimFloat.div a t) n)).
      exact (Hall n Hn).
  - intros e Hrun.
    destruct (Pandas.getitem "temperature_C" data) as [t|e0] eqn:Ht.
    2: { injection Hrun as <-. destruct (getitem_absent _ _ _ Ht) as [-> Hnot]. eauto. }
    destruct (Pandas.getitem "humidity_%" data) as [h|e0] eqn:Hh.
    2: { injection Hrun as <-. destruct (getitem_absent _ _ _ Hh) as [-> Hnot]. eauto. }
    destruct (Pandas.getitem "ammonia_ppm" data) as [a|e0] eqn:Ha.
    2: { injection Hrun as <-. destruct (getitem_absent _ _ _ Ha) as [-> Hnot]. eauto. }
    destruct (select_raises _ _ _ Hrun) as (n & -> & _ & Hnot).
    exists n. split; [reflexivity|]. intros Hin. apply Hnot.
    apply (proj2 (engineered_columns data (PrimFloat.div (PrimFloat.mul t h) 100%float)
                    (PrimFloat.div a t) n)), in_app_iff.
    left. exact Hin.
Qed.

(** X9.  [prepare_features] of the explainer returns a frame exactly when
    the renamed reading has the three columns the engineered features are
    computed from and every required feature is on offer; the frame then has
    the required features as its columns, in their order.  Whatever it
    raises is the [ValueError] for missing features or the
    [UnboundLocalError] of its [except] clause: a [KeyError] never leaves
    it. *)
Theorem explainer_prepare_features_outcomes (config : Main.feature_config)
    (reading : Pandas.row) :
  ((exists X, Explain.prepare_features config reading = Ok X) <->
   ((exists df, Explain.engineer reading = Ok df) /\
    forall f, In f (required_features config) -> In f (available_columns reading))) /\
  (forall X, Explain.prepare_features config reading = Ok X ->
     Pandas.columns X = required_features config) /\
  (forall e, Explain.prepare_features config reading = Raise e ->
     e = ValueError "Missing required features" \/
     e = UnboundLocalError "required_features").
Proof.
  unfold Explain.prepare_features.
  destruct (Explain.engineer reading) as [df|e0] eqn:Hdf.
  2: { split; [|split].
       - split; [intros [X HX]; discriminate HX|intros [[df Hdf'] _]; discriminate Hdf'].
       - intros X HX. discriminate HX.
       - intros e [= <-]. auto. }
  assert (Hcols : forall c, In c (Pandas.columns df) <-> In c (available_columns reading)).
  { intros c. destruct (engineer_inv reading df Hdf) as (t & h & a & Ht & Hh & Ha).
    rewrite (engineer_ok reading t h a Ht Hh Ha) in Hdf. injection Hdf as <-.
    apply engineered_columns. }
  unfold Explain.check_and_order. fold (required_features config).
  destruct (Explain.missing_features (required_features config) df) as [|f0 rest] eqn:Hmiss.
  - assert (Hall : forall f, In f (required_features config) -> In f (Pandas.columns df)).
    { intros f Hf. destruct (Pandas.has_column f df) eqn:Hhas; [apply has_column_In; exact Hhas|].
      assert (Hin : In f (Explain.missing_features (required_features config) df)).
      { unfold Explain.missing_features. apply filter_In. split; [exact Hf|].
        rewrite Hhas. reflexivity. }
      rewrite Hmiss in Hin. contradiction. }
    destruct (proj2 (select_returns _ _) Hall) as [X HX]. rewrite HX.
    split; [|split].
    + split; [intros _; split; [eauto|intros f Hf; apply Hcols, Hall, Hf]|eauto].
    + intros X' [= <-]. exact (select_columns _ _ _ HX).
    + intros e He. discriminate He.
  - assert (Hf0 : In f0 (required_features config) /\ ~ In f0 (Pandas.columns df)).
    { assert (Hin : In f0 (Explain.missing_features (required_features config) df))
        by (rewrite Hmiss; left; reflexivity).
      unfold Explain.missing_features in Hin. apply filter_In in Hin as [Hreq Hneg].
      split; [exact Hreq|]. intros Hc. apply has_column_In in Hc. rewrite Hc in Hneg.
      discriminate Hneg. }
    split; [|split].
    + split; [intros [X HX]; discriminate HX|].
      intros [_ Hall]. exfalso. apply (proj2 Hf0), Hcols, Hall, (proj1 Hf0).
    + intros X HX. discriminate HX.
    + intros e [= <-]. auto.
Qed.

End preparation_facts.

(** X7 on the frame of a reading, with the saved configuration. *)
Lemma main_prepare_features_orders_columns_witness :
  exists X cfg,
    Main.prepare_features (Some Reference.saved_config)
      (Main.DataFrame_of_reading (Reference.sample 30 60 12 7)) = Ok X /\
    Some Reference.saved_config = Some cfg /\
    Pandas.columns X = Main.feature_names cfg ++ Main.engineered_features cfg.
Proof.
  destruct (main_prepare_features_orders_columns (Some Reference.saved_config)
              (Main.DataFrame_of_reading (Reference.sample 30 60 12 7)) _ eq_refl)
    as (cfg & Hcfg & Hcols & _).
  eexists _, cfg. split; [reflexivity|]. split; [exact Hcfg|exact Hcols].
Defined.

(** * More on the dashboard *)

Section dashboard_facts.
Variable classifier : option (list float -> exc string).

(** One call of [update_history]: nothing for no reading; for a reading,
    either one row more or one error more. *)
Lemma update_history_step (now now' : float) (reading : option Dashboard.sensor_reading)
    (s : Dashboard.session_state) :
  match reading with
  | None => Dashboard.update_history classifier now now' reading s = s
  | Some r =>
      (exists row,
         Dashboard.history (Dashboard.update_history classifier now now' reading s) =
           Dashboard.history s ++ [row] /\
         Dashboard.shown_errors (Dashboard.update_history classifier now now' reading s) =
           Dashboard.shown_errors s /\
         (classifier = None -> Dashboard.entry_severity row = "Unknown")) \/
      (exists e,
         Dashboard.history (Dashboard.update_history classifier now now' reading s) =
           Dashboard.history s /\
         Dashboard.shown_errors (Dashboard.update_history classifier now now' reading s) =
           Dashboard.shown_errors s ++ [e])
  end.
Proof.
  destruct reading as [r|]; [|reflexivity].
  unfold Dashboard.update_history, Dashboard.update_history_try.
  destruct (Py.truediv (Dashboard.ammonia r) (Dashboard.temperature r)) as [ratio|e];
    cbn [exc_bind]; [|right; eexists; split; reflexivity].
  destruct classifier as [predict|].
  - destruct (predict _) as [label|e]; cbn [exc_bind].
    + left. eexists. split; [reflexivity|]. split; [reflexivity|discriminate].
    + right. eexists. split; reflexivity.
  - cbn [exc_bind]. left. eexists. split; [reflexivity|]. split; reflexivity.
Qed.

(** X10.  The stream accounts for every reading it is given and is stopped
    by none: over any run of cycles the history and the list of shown errors
    are only appended to, and together they grow by exactly the number of
    cycles that produced a reading, each such reading giving either one row
    or one error. *)
Theorem stream_accounts_for_every_reading
    (cycles : list (float * float * option Dashboard.sensor_reading))
    (s : Dashboard.session_state) :
  exists rows errors,
    Dashboard.history (Dashboard.stream_data classifier cycles s) =
      Dashboard.history s ++ rows /\
    Dashboard.shown_errors (Dashboard.stream_data classifier cycles s) =
      Dashboard.shown_errors s ++ errors /\
    length rows + length errors = length (omap snd cycles).
Proof.
  revert s. induction cycles as [|[[now now'] reading] cycles IH]; intros s.
  - exists [], []. cbn. rewrite !app_nil_r. repeat split.
  - unfold Dashboard.stream_data. cbn [fold_left].
    fold (Dashboard.stream_data classifier cycles
            (Dashboard.update_history classifier now now' reading s)).
    destruct (IH (Dashboard.update_history classifier now now' reading s))
      as (rows & errors & Hh & He & Hlen).
    pose proof (update_history_step now now' reading s) as Hstep.
    destruct reading as [r|]; cbn [omap snd option_bind list_omap].
    + destruct Hstep as [(row & Hh1 & He1 & _)|(e & Hh1 & He1)].
      * exists (row :: rows), errors. rewrite Hh, He, Hh1, He1, <- app_assoc.
        cbn [length app]. repeat split. cbn in Hlen |- *. lia.
      * exists rows, (e :: errors). rewrite Hh, He, Hh1, He1, <- app_assoc.
        cbn [length app]. repeat split. cbn in Hlen |- *. lia.
    + rewrite Hstep in Hh, He. exists rows, errors. repeat split; assumption.
Qed.

End dashboard_facts.

Section dashboard_panel_facts.

(** X11.  Without a classifier every row the stream appends is labelled
    "Unknown", and for a latest row so labelled the panel shows the advice
    for an optimal environment: when the history started with such rows
    only, the panel never shows another advice. *)
Theorem missing_models_shown_as_optimal
    (cycles : list (float * float * option Dashboard.sensor_reading))
    (s : Dashboard.session_state) (explain : Pandas.row -> exc Explain.explanation) :
  Forall (fun row => Dashboard.entry_severity row = "Unknown") (Dashboard.history s) ->
  Forall (fun row => Dashboard.entry_severity row = "Unknown")
         (Dashboard.history (Dashboard.stream_data None cycles s)) /\
  forall p,
    Dashboard.analysis_panel explain (Dashboard.stream_data None cycles s) = Some p ->
    Dashboard.shown_advice p = Dashboard.Optimal.
Proof.
  intros Hall.
  assert (Hinv : Forall (fun row => Dashboard.entry_severity row = "Unknown")
                        (Dashboard.history (Dashboard.stream_data None cycles s))).
  { revert s Hall. induction cycles as [|[[now now'] reading] cycles IH]; intros s Hall;
      [exact Hall|].
    unfold Dashboard.stream_data. cbn [fold_left]. apply IH.
    pose proof (update_history_step None now now' reading s) as Hstep.
    destruct reading as [r|]; [|rewrite Hstep; exact Hall].
    destruct Hstep as [(row & -> & _ & Hrow)|(e & -> & _)]; [|exact Hall].
    apply Forall_app. split; [exact Hall|]. constructor; [exact (Hrow eq_refl)|constructor]. }
  split; [exact Hinv|].
  intros p Hp. unfold Dashboard.analysis_panel in Hp.
  destruct (last (Dashboard.history (Dashboard.stream_data None cycles s)))
    as [latest|] eqn:Hlast; [|discriminate Hp].
  assert (Hsev : Dashboard.entry_severity latest = "Unknown").
  { destruct (last_snoc_inv _ _ Hlast) as [init Hinit]. rewrite Hinit in Hinv.
    apply Forall_app in Hinv as [_ Hinv]. inversion Hinv; assumption. }
  injection Hp as <-. cbn [Dashboard.shown_advice]. rewrite Hsev. reflexivity.
Qed.

(** X12.  The vector [update_history] gives the classifier has the ratio
    before the interaction, while the frame [prepare_features] of [main.py]
    builds under the saved configuration, which is the order the classifier
    was trained with, has the interaction before the ratio: calling the
    classifier from [update_history] is calling it on that frame's values
    with the two engineered entries exchanged. *)
Theorem dashboard_exchanges_engineered_features (predict : list float -> exc string)
    (now now' : float) (r : Dashboard.sensor_reading) (s : Dashboard.session_state)
    (stamp : float) (label : option string) (score : option float) :
  let m := Main.mk_reading (Dashboard.temperature r) (Dashboard.humidity r)
             (Dashboard.ammonia r) stamp (Dashboard.pH r) label score in
  exists X,
    Main.prepare_features (Some Reference.saved_config) (Main.DataFrame_of_reading m) = Ok X /\
    map snd X =
      [Dashboard.temperature r; Dashboard.humidity r; Dashboard.ammonia r; Dashboard.pH r;
       PrimFloat.div (PrimFloat.mul (Dashboard.temperature r) (Dashboard.humidity r)) 100%float;
       PrimFloat.div (Dashboard.ammonia r) (Dashboard.temperature r)] /\
    Dashboard.update_history (Some predict) now now' (Some r) s =
    Dashboard.update_history (Some (fun _ => predict (exchange_engineered (map snd X))))
      now now' (Some r) s.
Proof.
  intros m. eexists. split; [reflexivity|]. split; [reflexivity|].
  unfold Dashboard.update_history, Dashboard.update_history_try, Py.truediv.
  destruct (PrimFloat.eqb (Dashboard.temperature r) 0%float); reflexivity.
Qed.

(** X13.  The panel never shows an explanation: the names under which it
    hands the latest row to the explainer do not give the explainer its
    temperature column, so for every configuration and every model the
    explanation fails with the [UnboundLocalError] of the [except] clause,
    and the panel shows its notice and its advice. *)
Theorem panel_never_shows_explanation (config : Main.feature_config)
    (model : Pandas.row -> exc Explain.explanation) (s : Dashboard.session_state)
    (latest : Dashboard.entry) :
  last (Dashboard.history s) = Some latest ->
  Explain.explain_prediction config model (Dashboard.feature_data latest) =
    Raise (UnboundLocalError "required_features") /\
  exists p,
    Dashboard.analysis_panel (Explain.explain_prediction config model) s = Some p /\
    Dashboard.shown_explanation p = None /\
    Dashboard.failure_notice p = true.
Proof.
  intros Hlast.
  assert (Hfail : Explain.explain_prediction config model (Dashboard.feature_data latest) =
                  Raise (UnboundLocalError "required_features")) by reflexivity.
  split; [exact Hfail|].
  unfold Dashboard.analysis_panel. rewrite Hlast, Hfail.
  eexists. repeat split; reflexivity.
Qed.

End dashboard_panel_facts.

(** X11 on one reading streamed into an empty history. *)
Lemma missing_models_shown_as_optimal_witness :
  Forall (fun row => Dashboard.entry_severity row = "Unknown")
         (Dashboard.history
            (Dashboard.stream_data None
               [(1%float, 2%float, Some (Dashboard.mk_sensor 30 60 12 7))]
               (Dashboard.mk_session [] None []))) /\
  exists p,
    Dashboard.analysis_panel (fun _ => Raise NotFittedError)
      (Dashboard.stream_data None
         [(1%float, 2%float, Some (Dashboard.mk_sensor 30 60 12 7))]
         (Dashboard.mk_session [] None [])) = Some p /\
    Dashboard.shown_advice p = Dashboard.Optimal.
Proof.
  destruct (missing_models_shown_as_optimal
              [(1%float, 2%float, Some (Dashboard.mk_sensor 30 60 12 7))]
              (Dashboard.mk_session [] None []) (fun _ => Raise NotFittedError)
              (List.Forall_nil _)) as [Hall Hpanel].
  split; [exact Hall|].
  eexists. split; [vm_compute; reflexivity|].
  apply Hpanel. vm_compute. reflexivity.
Defined.

(** X13 on a history of one row. *)
Lemma panel_never_shows_explanation_witness :
  exists p,
    Dashboard.analysis_panel
      (Explain.explain_prediction Reference.saved_config (fun _ => Raise NotFittedError))
      (Dashboard.mk_session [Dashboard.mk_entry 1 30 60 12 7 "Low" 0.4 18] None []) = Some p /\
    Dashboard.shown_explanation p = None /\
    Dashboard.failure_notice p = true.
Proof.
  exact (proj2 (panel_never_shows_explanation Reference.saved_config
                  (fun _ => Raise NotFittedError)
                  (Dashboard.mk_session [Dashboard.mk_entry 1 30 60 12 7 "Low" 0.4 18] None [])
                  (Dashboard.mk_entry 1 30 60 12 7 "Low" 0.4 18) eq_refl)).
Defined.

(** * More on the forecaster *)

Section forecaster_facts.
Context {A : Type}.

(** The windows [create_sequences] builds, by index. *)
Lemma create_sequences_lookup (self : Forecast.PoultryForecaster) (data : list A) (i : nat) :
  (0 <= Forecast.sequence_length self)%Z ->
  (0 <= Forecast.prediction_length self)%Z ->
  (i + Z.to_nat (Forecast.sequence_length self) +
   Z.to_nat (Forecast.prediction_length self) <= length data)%nat ->
  fst (Forecast.create_sequences self data) !! i =
    Some (take (Z.to_nat (Forecast.sequence_length self)) (drop i data)) /\
  snd (Forecast.create_sequences self data) !! i =
    Some (take (Z.to_nat (Forecast.prediction_length self))
               (drop (i + Z.to_nat (Forecast.sequence_length self)) data)).
Proof.
  intros HL HP Hi.
  set (L := Z.to_nat (Forecast.sequence_length self)) in *.
  set (P := Z.to_nat (Forecast.prediction_length self)) in *.
  assert (HLz : Forecast.sequence_length self = Z.of_nat L) by (subst L; lia).
  assert (HPz : Forecast.prediction_length self = Z.of_nat P) by (subst P; lia).
  unfold Forecast.create_sequences. cbn [fst snd]. rewrite HLz, HPz.
  rewrite !list_lookup_fmap, range_lookup by lia. cbn [fmap option_fmap option_map].
  rewrite slice_in_range by lia.
  replace (Z.of_nat i + Z.of_nat L)%Z with (Z.of_nat (i + L)) by lia.
  rewrite slice_in_range by lia. split; reflexivity.
Qed.

(** X14.  Each pair [create_sequences] returns is one contiguous stretch of
    the data: the target starts where the input ends, the input followed by
    the target is the [L + P] points from index [i] on, and the [j]-th point
    of the [i]-th input (target) is the data point [i + j] ([i + L + j]). *)
Theorem create_sequences_pairs_are_contiguous (self : Forecast.PoultryForecaster)
    (data : list A) (i : nat) :
  (0 <= Forecast.sequence_length self)%Z ->
  (0 <= Forecast.prediction_length self)%Z ->
  let L := Z.to_nat (Forecast.sequence_length self) in
  let P := Z.to_nat (Forecast.prediction_length self) in
  (i + L + P <= length data)%nat ->
  exists input target,
    fst (Forecast.create_sequences self data) !! i = Some input /\
    snd (Forecast.create_sequences self data) !! i = Some target /\
    input ++ target = take (L + P) (drop i data) /\
    (forall j, (j < L)%nat -> input !! j = data !! (i + j)%nat) /\
    (forall j, (j < P)%nat -> target !! j = data !! (i + L + j)%nat).
Proof.
  intros HL HP L P Hi.
  destruct (create_sequences_lookup self data i HL HP Hi) as [HX Hy].
  eexists _, _. split; [exact HX|]. split; [exact Hy|]. fold L P. split; [|split].
  - rewrite <- take_take_drop, drop_drop. reflexivity.
  - intros j Hj. rewrite lookup_take_lt, lookup_drop by exact Hj. reflexivity.
  - intros j Hj. rewrite lookup_take_lt, lookup_drop by exact Hj. reflexivity.
Qed.

End forecaster_facts.

(** X14 on five points with inputs of two points and targets of one. *)
Lemma create_sequences_pairs_are_contiguous_witness :
  exists input target,
    fst (Forecast.create_sequences (Forecast.mk_forecaster 2 1) [1; 2; 3; 4; 5]%nat) !! 2%nat =
      Some input /\
    snd (Forecast.create_sequences (Forecast.mk_forecaster 2 1) [1; 2; 3; 4; 5]%nat) !! 2%nat =
      Some target /\
    input ++ target = [3; 4; 5]%nat.
Proof.
  destruct (create_sequences_pairs_are_contiguous (Forecast.mk_forecaster 2 1)
              [1; 2; 3; 4; 5]%nat 2%nat
              ltac:(vm_compute; discriminate) ltac:(vm_compute; discriminate)
              ltac:(vm_compute; lia))
    as (input & target & HX & Hy & Happ & _).
  exists input, target. split; [exact HX|]. split; [exact Hy|]. exact Happ.
Defined.

(** * The synthetic series *)

Section synthetic_facts.

Lemma float_ltb_leb (a b : float) : PrimFloat.ltb a b = true -> PrimFloat.leb a b = true.
Proof.
  rewrite ltb_spec, leb_spec. unfold SFltb, SFleb.
  destruct (SFcompare (Prim2SF a) (Prim2SF b)) as [[| |]|]; (reflexivity || discriminate).
Qed.

(** Clipping to a range of two numbers. *)
Lemma np_clip_in_range (lo hi x : float) :
  PrimFloat.is_nan lo = false -> PrimFloat.is_nan hi = false ->
  PrimFloat.leb lo lo = true -> PrimFloat.leb hi hi = true -> PrimFloat.leb lo hi = true ->
  PrimFloat.is_nan (Synthetic.np_clip x lo hi) = PrimFloat.is_nan x /\
  (PrimFloat.is_nan x = false ->
   PrimFloat.leb lo (Synthetic.np_clip x lo hi) = true /\
   PrimFloat.leb (Synthetic.np_clip x lo hi) hi = true).
Proof.
  intros Hnlo Hnhi Hlo Hhi Hlohi.
  unfold Synthetic.np_clip, Synthetic.np_maximum, Synthetic.np_minimum.
  destruct (PrimFloat.is_nan x) eqn:Hx.
  { rewrite Hx. split; [exact Hx|discriminate]. }
  destruct (PrimFloat.ltb lo x) eqn:Hc1.
  - rewrite Hx. destruct (PrimFloat.ltb x hi) eqn:Hc2.
    + split; [exact Hx|]. intros _. split; apply float_ltb_leb; assumption.
    + split; [exact Hnhi|]. intros _. split; assumption.
  - rewrite Hnlo. destruct (PrimFloat.ltb lo hi) eqn:Hc2.
    + split; [exact Hnlo|]. intros _. split; [exact Hlo|exact Hlohi].
    + split; [exact Hnhi|]. intros _. split; assumption.
Qed.

Lemma map_clip_clipped (lo hi : float) (raw : list float) :
  PrimFloat.is_nan lo = false -> PrimFloat.is_nan hi = false ->
  PrimFloat.leb lo lo = true -> PrimFloat.leb hi hi = true -> PrimFloat.leb lo hi = true ->
  clipped_to lo hi raw (map (fun x => Synthetic.np_clip x lo hi) raw).
Proof.
  intros Hnlo Hnhi Hlo Hhi Hlohi. split; [apply length_map|].
  intros i x Hi. exists (Synthetic.np_clip x lo hi).
  split; [rewrite list_lookup_fmap, Hi; reflexivity|].
  apply np_clip_in_range; assumption.
Qed.

(** X15.  Whatever the sines and the noise give, the series
    [generate_synthetic_timeseries] returns has, entry for entry, its
    temperatures within 20 and 35, its humidities within 40 and 80, its
    ammonia levels within 5 and 20 and its pH values within 6.5 and 7.5; an
    entry that is not a number stays so. *)
Theorem synthetic_series_within_ranges (temp humidity ammonia ph : list float) :
  let series := Synthetic.generate_synthetic_timeseries temp humidity ammonia ph in
  clipped_to 20 35 temp (Synthetic.temperature_C series) /\
  clipped_to 40 80 humidity (Synthetic.humidity_pct series) /\
  clipped_to 5 20 ammonia (Synthetic.ammonia_ppm series) /\
  clipped_to 6.5 7.5 ph (Synthetic.ph series).
Proof.
  intros series. subst series. unfold Synthetic.generate_synthetic_timeseries.
  cbn [Synthetic.temperature_C Synthetic.humidity_pct Synthetic.ammonia_ppm Synthetic.ph].
  repeat split; apply map_clip_clipped; reflexivity.
Qed.

End synthetic_facts.
